(** * BusinessIntel: the Instagram opportunity scorer, its cache, store and scheduler

    A shallow embedding of the parts of the repository that carry the
    scoring arithmetic, the result cache, the "latest analysis per profile"
    queries and the crawl-job scheduler:

    - [Analyzer]  : [InstagramAnalyzer.analyze_profile]  (instagram_analyzer.py)
    - [Store]     : [DatabaseManager.get_top_opportunities], [mark_contacted]
                    (database.py, app/models/database_manager.py)
    - [Api]       : [analyze_profile_async], [batch_analyze_profiles] (api_server.py)
    - [Scheduler] : [CrawlerScheduler.run_crawl_job], [_calculate_next_run]
                    (scheduler.py)

    Modelling conventions.
    - Python [int] is [Z]; Python [float] is an exact rational [Q] compared
      with [==].  Every threshold of the scorer (1.5, 2.0, 0.02, ...) is the
      rational it denotes.
    - A [datetime] is an absolute instant, a [Z] number of microseconds; a
      [timedelta] is a [Z] number of microseconds.
    - Exceptions are values of an error monad [Py].
    - Every [datetime.now()] of the source is an explicit argument (or a read
      of an explicit clock), one per call site. *)

From Stdlib Require Import ZArith QArith Qround Qabs String List Lia Lqa Sorted.
From stdpp Require Import gmap strings list pretty.

Local Open Scope Z_scope.

(** ** Python arithmetic *)

Module Py.

Inductive Exn : Type :=
| ZeroDivisionError
| StatisticsError.

(** A computation that may raise. *)
Definition t (A : Type) : Type := (Exn + A)%type.

Definition ret {A : Type} (a : A) : t A := inr a.

Definition bind {A B : Type} (m : t A) (k : A -> t B) : t B :=
  match m with
  | inl e => inl e
  | inr a => k a
  end.

(** [a / b] on numbers: raises on a zero divisor. *)
Definition truediv (a b : Q) : t Q :=
  if Qeq_bool b 0 then inl ZeroDivisionError else inr (a / b)%Q.

Definition sum (l : list Z) : Z := fold_right Z.add 0 l.

(** [statistics.mean]: raises on an empty sample. *)
Definition mean (data : list Z) : t Q :=
  match data with
  | [] => inl StatisticsError
  | _ => inr (inject_Z (sum data) / inject_Z (Z.of_nat (length data)))%Q
  end.

Definition ltb (a b : Q) : bool := negb (Qle_bool b a).
Definition leb (a b : Q) : bool := Qle_bool a b.

(** [max(a, b)] and [min(a, b)] return the first argument on a tie. *)
Definition max (a b : Q) : Q := if ltb a b then b else a.
Definition min (a b : Q) : Q := if ltb b a then b else a.

(** Nearest integer, ties to even. *)
Definition round_half_even (x : Q) : Z :=
  let f := Qfloor x in
  match Qcompare (x - inject_Z f) (1 # 2) with
  | Lt => f
  | Gt => f + 1
  | Eq => if Z.even f then f else f + 1
  end.

(** [round(x, ndigits)]. *)
Definition round (x : Q) (ndigits : nat) : Q :=
  let scale := inject_Z (10 ^ Z.of_nat ndigits) in
  (inject_Z (round_half_even (x * scale)) / scale)%Q.

(** Microseconds in one day, and [timedelta.days] (which floors). *)
Definition DAY : Z := 86400000000.
Definition days (delta : Z) : Z := delta / DAY.
Definition timedelta_days (n : Z) : Z := n * DAY.
Definition timedelta_weeks (n : Z) : Z := n * 7 * DAY.

(** Truthiness of a list. *)
Definition truthy {A : Type} (l : list A) : bool :=
  match l with [] => false | _ => true end.

(** [l.sort(key=key, reverse=True)]: descending by key, and stable (equal
    keys keep their order). *)
Fixpoint insert_desc {A : Type} (key : A -> Q) (x : A) (l : list A) : list A :=
  match l with
  | [] => [x]
  | y :: l' =>
      if leb (key y) (key x) then x :: y :: l'
      else y :: insert_desc key x l'
  end.

Definition sort_desc {A : Type} (key : A -> Q) (l : list A) : list A :=
  fold_right (insert_desc key) [] l.

End Py.

Notation "'let*' x ':=' m 'in' k" := (Py.bind m (fun x => k))
  (at level 10, x name, m at level 100, k at level 200).

(** ** instagram_analyzer.py *)

Module Analyzer.

(** One entry of [profile_data['recent_posts']]; only the keys that
    [analyze_profile] reads. *)
Record Post : Type := {
  likes : Z;
  comments : Z;
  date : Z
}.

(** [profile_data].  [recent_posts = None] is a dict without that key. *)
Record ProfileData : Type := {
  username : string;
  full_name : string;
  followers : Z;
  following : Z;
  total_posts : Z;
  is_business : bool;
  recent_posts : option (list Post)
}.

(** The values computed by lines 105-128 of [analyze_profile], before any
    rounding. *)
Record Metrics : Type := {
  avg_likes : Q;
  avg_comments : Q;
  engagement_rate : Q;
  avg_posting_interval : Q;
  last_post_days : Z
}.

(** The dict returned on the normal path. *)
Record Analysis : Type := {
  res_username : string;
  res_full_name : string;
  res_followers : Z;
  res_following : Z;
  posts : Z;
  res_is_business : bool;
  res_engagement_rate : Q;
  average_likes : Q;
  average_comments : Q;
  posting_frequency : string;
  avg_posting_interval_days : Q;
  res_last_post_days : Z;
  growth_potential : string;
  issues : list string;
  recommendations : list string;
  opportunity_score : Q;
  analyzed_at : Z
}.

(** The two shapes of dict the analyzer returns: a dict with an ['error']
    key (and an ['opportunity_score'] key or none), or a full report. *)
Inductive Result : Type :=
| ErrorResult (error : string) (score : option Q)
| Report (a : Analysis).

(** [d.get('opportunity_score')]. *)
Definition result_score (r : Result) : option Q :=
  match r with
  | ErrorResult _ s => s
  | Report a => Some (opportunity_score a)
  end.

(** ['error' in d]. *)
Definition has_error (r : Result) : bool :=
  match r with
  | ErrorResult _ _ => true
  | Report _ => false
  end.

Fixpoint date_diffs (post_dates : list Z) : list Z :=
  match post_dates with
  | d0 :: rest =>
      match rest with
      | d1 :: _ => Py.days (d0 - d1) :: date_diffs rest
      | [] => []
      end
  | [] => []
  end.

(** Lines 105-128. *)
Definition compute_metrics (profile_data : ProfileData) (posts : list Post)
    (now : Z) : Py.t Metrics :=
  let followers := followers profile_data in
  let total_likes := Py.sum (map likes posts) in
  let total_comments := Py.sum (map comments posts) in
  let len_posts := inject_Z (Z.of_nat (length posts)) in
  let* avg_likes :=
    (if Py.truthy posts then Py.truediv (inject_Z total_likes) len_posts
     else Py.ret 0%Q) in
  let* avg_comments :=
    (if Py.truthy posts then Py.truediv (inject_Z total_comments) len_posts
     else Py.ret 0%Q) in
  let avg_engagement := (avg_likes + avg_comments)%Q in
  let* engagement_rate :=
    (if 0 <? followers
     then let* q := Py.truediv avg_engagement (inject_Z followers) in
          Py.ret (q * 100)%Q
     else Py.ret 0%Q) in
  let* avg_posting_interval :=
    (if (2 <=? length posts)%nat
     then let post_dates := map date posts in
          let diffs := date_diffs post_dates in
          if Py.truthy diffs then Py.mean diffs else Py.ret 0%Q
     else Py.ret 30%Q) in
  let last_post_days :=
    match posts with
    | p0 :: _ => Py.days (now - date p0)
    | [] => 999
    end in
  Py.ret {| avg_likes := avg_likes;
            avg_comments := avg_comments;
            engagement_rate := engagement_rate;
            avg_posting_interval := avg_posting_interval;
            last_post_days := last_post_days |}.

(** Lines 130-138. *)
Definition posting_frequency_of (avg_posting_interval : Q) : string :=
  if Py.leb avg_posting_interval (3 # 2) then "daily"
  else if Py.leb avg_posting_interval 4 then "2-3 times/week"
  else if Py.leb avg_posting_interval 9 then "weekly"
  else "irregular".

Definition ISSUE_LOW_ENGAGEMENT : string :=
  "Low engagement rate - audience not interacting with content".
Definition ISSUE_INCONSISTENT_POSTING : string :=
  "Inconsistent posting schedule - losing audience interest".
Definition ISSUE_INACTIVE (last_post_days : Z) : string :=
  "Inactive account - last post was " +:+ pretty last_post_days +:+ " days ago".
Definition ISSUE_OVER_FOLLOWING : string :=
  "Following too many accounts compared to followers".
Definition ISSUE_WEAK_COMMENTS : string :=
  "Very low comment-to-like ratio - weak community engagement".
Definition ISSUE_LIMITED_CONTENT : string :=
  "Limited content library - not enough posts to attract followers".

Definition append_if {A : Type} (c : bool) (x : A) (l : list A) : list A :=
  if c then l ++ [x] else l.

(** Lines 140-153: the full list, before the [issues[:5]] of the return. *)
Definition all_issues (profile_data : ProfileData) (m : Metrics) : list string :=
  let issues := [] in
  let issues := append_if (Py.ltb (engagement_rate m) 2) ISSUE_LOW_ENGAGEMENT issues in
  let issues := append_if (Py.ltb 5 (avg_posting_interval m))
                  ISSUE_INCONSISTENT_POSTING issues in
  let issues := append_if (7 <? last_post_days m)
                  (ISSUE_INACTIVE (last_post_days m)) issues in
  let issues := append_if
                  (Py.ltb (inject_Z (followers profile_data) * (3 # 2))
                          (inject_Z (following profile_data)))
                  ISSUE_OVER_FOLLOWING issues in
  let issues := append_if (Py.ltb (avg_comments m) (avg_likes m * (2 # 100)))
                  ISSUE_WEAK_COMMENTS issues in
  let issues := append_if (total_posts profile_data <? 50)
                  ISSUE_LIMITED_CONTENT issues in
  issues.

Definition REC_HASHTAGS : string :=
  "Implement strategic hashtag research and use 20-30 relevant hashtags per post".
Definition REC_SCHEDULE : string :=
  "Establish consistent posting schedule - aim for 4-5 posts per week minimum".
Definition REC_CONVERSATION : string :=
  "Create content that encourages conversation - ask questions, run polls, engage with comments".
Definition REC_RESUME : string :=
  "Resume regular posting immediately to re-engage dormant audience".
Definition REC_TOP_POSTS : string :=
  "Analyze top-performing posts and replicate successful content themes".
Definition REC_TIMES : string :=
  "Optimize posting times based on when followers are most active".
Definition REC_VISUAL : string :=
  "Invest in high-quality visual content - use professional photography/videography".

(** Lines 155-168. *)
Definition all_recommendations (m : Metrics) : list string :=
  let recs := [] in
  let recs := append_if (Py.ltb (engagement_rate m) 3) REC_HASHTAGS recs in
  let recs := append_if (Py.ltb 3 (avg_posting_interval m)) REC_SCHEDULE recs in
  let recs := append_if (Py.ltb (avg_comments m) (avg_likes m * (5 # 100)))
                REC_CONVERSATION recs in
  let recs := append_if (3 <? last_post_days m) REC_RESUME recs in
  recs ++ [REC_TOP_POSTS; REC_TIMES; REC_VISUAL].

(** Lines 170-176. *)
Definition growth_potential_of (m : Metrics) : string :=
  if Py.ltb (engagement_rate m) (3 # 2) && Py.ltb 7 (avg_posting_interval m)
  then "low"
  else if Py.ltb (engagement_rate m) 3 || Py.ltb 4 (avg_posting_interval m)
  then "medium"
  else "high".

Definition add_if (c : bool) (bonus score : Q) : Q :=
  if c then (score + bonus)%Q else score.

(** Lines 180-191: base 5 and the five conditional increments. *)
Definition raw_score (profile_data : ProfileData) (m : Metrics) : Q :=
  let score := 5%Q in
  let score := add_if (Py.ltb (engagement_rate m) 2) (3 # 2) score in
  let score := add_if (Py.ltb 5 (avg_posting_interval m)) (3 # 2) score in
  let score := add_if (7 <? last_post_days m) 1 score in
  let score := add_if ((1000 <? followers profile_data)
                       && Py.ltb (engagement_rate m) (5 # 2)) 1 score in
  let score := add_if (is_business profile_data) (1 # 2) score in
  score.

(** Line 193. *)
Definition clamp_score (score : Q) : Q :=
  Py.min 10 (Py.max 1 (Py.round score 1)).

(** Lines 130-213: the returned dict; [stamp] is the [datetime.now()] of
    line 212. *)
Definition build_report (profile_data : ProfileData) (m : Metrics)
    (stamp : Z) : Analysis :=
  {| res_username := username profile_data;
     res_full_name := full_name profile_data;
     res_followers := followers profile_data;
     res_following := following profile_data;
     posts := total_posts profile_data;
     res_is_business := is_business profile_data;
     res_engagement_rate := Py.round (engagement_rate m) 2;
     average_likes := Py.round (avg_likes m) 1;
     average_comments := Py.round (avg_comments m) 1;
     posting_frequency := posting_frequency_of (avg_posting_interval m);
     avg_posting_interval_days := Py.round (avg_posting_interval m) 1;
     res_last_post_days := last_post_days m;
     growth_potential := growth_potential_of m;
     issues := take 5 (all_issues profile_data m);
     recommendations := take 6 (all_recommendations m);
     opportunity_score := clamp_score (raw_score profile_data m);
     analyzed_at := stamp |}.

(** Lines 100-103. *)
Definition INSUFFICIENT : Result :=
  ErrorResult "Insufficient data for analysis" (Some 0%Q).

(** [analyze_profile(profile_data)]; [now] is the clock read of line 128. *)
Definition analyze_profile (profile_data : option ProfileData)
    (now stamp : Z) : Py.t Result :=
  match profile_data with
  | None => Py.ret INSUFFICIENT
  | Some pd =>
      match recent_posts pd with
      | None => Py.ret INSUFFICIENT
      | Some [] => Py.ret INSUFFICIENT
      | Some posts =>
          let* m := compute_metrics pd posts now in
          Py.ret (Report (build_report pd m stamp))
      end
  end.

(** The scenario of the specification: 5 posts, 25 likes and 1 comment in
    all, 12 days apart, the newest 10 days old. *)
Definition scenario_posts : list Post :=
  [ {| likes := 5; comments := 1; date := 48 * Py.DAY |};
    {| likes := 5; comments := 0; date := 36 * Py.DAY |};
    {| likes := 5; comments := 0; date := 24 * Py.DAY |};
    {| likes := 5; comments := 0; date := 12 * Py.DAY |};
    {| likes := 5; comments := 0; date := 0 |} ].

Definition scenario_profile : ProfileData :=
  {| username := "shop"; full_name := "Shop";
     followers := 1000; following := 2000; total_posts := 5;
     is_business := false; recent_posts := Some scenario_posts |}.

Definition scenario_now : Z := 58 * Py.DAY.

(** [analyze_username(username)], lines 215-234.  [fetch] stands for
    [fetch_profile_data], which catches every exception of the network layer
    and returns [None] for it. *)
Definition analyze_username (fetch : string -> option ProfileData)
    (username : string) (now stamp : Z) : Py.t Result :=
  match fetch username with
  | None => Py.ret (ErrorResult ("Could not fetch profile @" +:+ username) None)
  | Some profile_data => analyze_profile (Some profile_data) now stamp
  end.

End Analyzer.

(** ** database.py / app/models/database_manager.py *)

Module Store.

(** A row of [analysis_history] (database.py, lines 22-46).  The columns
    [username], [opportunity_score] and [analyzed_at] are taken as filled
    in, as [add_analysis] with the column default leaves them. *)
Record AnalysisHistory : Type := {
  id : Z;
  username : string;
  followers : Z;
  following : Z;
  posts : Z;
  engagement_rate : Q;
  posting_frequency : string;
  opportunity_score : Q;
  issues : list string;
  recommendations : list string;
  contacted : bool;
  contacted_date : option Z;
  converted_to_client : bool;
  conversion_date : option Z;
  notes : option string;
  analyzed_at : Z
}.

(** The table, in insertion order. *)
Abbreviation Table := (list AnalysisHistory).

(** [func.max(analyzed_at)] over the group of one username. *)
Definition max_analyzed_at (rows : Table) (u : string) : Z :=
  let group := map analyzed_at (filter (fun r => username r = u) rows) in
  fold_right Z.max (hd 0 group) group.

(** The subquery: one [(username, latest)] row per distinct username. *)
Definition latest_subquery (rows : Table) : list (string * Z) :=
  map (fun u => (u, max_analyzed_at rows u)) (remove_dups (map username rows)).

(** The inner join on [username] and [analyzed_at == latest]. *)
Definition join_latest (rows : Table) (subq : list (string * Z)) : Table :=
  flat_map
    (fun r =>
       flat_map
         (fun s : string * Z =>
            if decide (username r = fst s /\ analyzed_at r = snd s)
            then [r] else [])
         subq)
    rows.

(** [get_top_opportunities(min_score, limit)].  [ORDER BY ... DESC] is
    taken as a stable sort of the joined rows in table order. *)
Definition get_top_opportunities (min_score : Q) (limit : nat)
    (rows : Table) : list AnalysisHistory :=
  let subq := latest_subquery rows in
  let joined := join_latest rows subq in
  let kept := filter (fun r => Py.leb min_score (opportunity_score r) = true) joined in
  take limit (Py.sort_desc opportunity_score kept).

(** [.filter(username == u).order_by(analyzed_at.desc()).first()]: the
    position and the row of the newest analysis of [u]; among rows of
    equal [analyzed_at] the one inserted first. *)
Fixpoint newest (u : string) (rows : Table) : option (nat * AnalysisHistory) :=
  match rows with
  | [] => None
  | r :: rest =>
      let later :=
        match newest u rest with
        | Some (i, x) => Some (S i, x)
        | None => None
        end in
      if decide (username r = u) then
        match later with
        | Some (i, x) =>
            if analyzed_at r <? analyzed_at x then Some (i, x) else Some (0%nat, r)
        | None => Some (0%nat, r)
        end
      else later
  end.

(** Truthiness of [notes: Optional[str]]. *)
Definition notes_truthy (notes : option string) : bool :=
  match notes with
  | Some s => negb (String.eqb s "")
  | None => false
  end.

(** Lines 268-272: the three assignments on the selected row. *)
Definition contact (now : Z) (new_notes : option string)
    (a : AnalysisHistory) : AnalysisHistory :=
  {| id := id a;
     username := username a;
     followers := followers a;
     following := following a;
     posts := posts a;
     engagement_rate := engagement_rate a;
     posting_frequency := posting_frequency a;
     opportunity_score := opportunity_score a;
     issues := issues a;
     recommendations := recommendations a;
     contacted := true;
     contacted_date := Some now;
     converted_to_client := converted_to_client a;
     conversion_date := conversion_date a;
     notes := if notes_truthy new_notes then new_notes else notes a;
     analyzed_at := analyzed_at a |}.

(** [mark_contacted(username, notes)]; [now] is [datetime.utcnow()]. *)
Definition mark_contacted (u : string) (new_notes : option string) (now : Z)
    (rows : Table) : bool * Table :=
  match newest u rows with
  | None => (false, rows)
  | Some (i, analysis) => (true, <[i := contact now new_notes analysis]> rows)
  end.

(** [get_profile_history(username, limit)], database.py lines 237-249;
    [ORDER BY analyzed_at DESC] taken as a stable sort, as above. *)
Definition get_profile_history (u : string) (limit : nat) (rows : Table)
    : list AnalysisHistory :=
  take limit
       (Py.sort_desc (fun r => inject_Z (analyzed_at r))
                     (filter (fun r => username r = u) rows)).

(** Lines 192-195: the assignments of [mark_converted]. *)
Definition convert (now : Z) (new_notes : option string)
    (a : AnalysisHistory) : AnalysisHistory :=
  {| id := id a;
     username := username a;
     followers := followers a;
     following := following a;
     posts := posts a;
     engagement_rate := engagement_rate a;
     posting_frequency := posting_frequency a;
     opportunity_score := opportunity_score a;
     issues := issues a;
     recommendations := recommendations a;
     contacted := contacted a;
     contacted_date := contacted_date a;
     converted_to_client := true;
     conversion_date := Some now;
     notes := if notes_truthy new_notes then new_notes else notes a;
     analyzed_at := analyzed_at a |}.

(** [mark_converted(username, notes)], database.py lines 181-198. *)
Definition mark_converted (u : string) (new_notes : option string) (now : Z)
    (rows : Table) : bool * Table :=
  match newest u rows with
  | None => (false, rows)
  | Some (i, analysis) => (true, <[i := convert now new_notes analysis]> rows)
  end.

Definition mk (i : Z) (u : string) (score : Q) (t : Z) : AnalysisHistory :=
  {| id := i; username := u; followers := 0; following := 0; posts := 0;
     engagement_rate := 0; posting_frequency := "weekly";
     opportunity_score := score; issues := []; recommendations := [];
     contacted := false; contacted_date := None;
     converted_to_client := false; conversion_date := None;
     notes := None; analyzed_at := t |}.

End Store.

(** ** database.py: the businesses table *)

Module Businesses.

(** A row of [businesses] (database.py, lines 49-71), the columns the two
    functions below read or write.  [is_active] is only ever tested with
    [IS TRUE]. *)
Record Business : Type := {
  id : Z;
  business_name : string;
  instagram_username : option string;
  is_active : bool;
  last_analyzed : option Z;
  current_opportunity_score : option Q;
  analysis_count : Z
}.

(** Lines 206-218: the filter of [get_businesses_needing_analysis], with
    [cutoff = utcnow() - 7 days]. *)
Definition needs_analysis (cutoff : Z) (b : Business) : bool :=
  match instagram_username b with
  | None => false
  | Some _ =>
      is_active b &&
      match last_analyzed b with
      | None => true
      | Some t => t <? cutoff
      end
  end.

(** [get_businesses_needing_analysis(limit)]; [now] is [datetime.utcnow()],
    the rows come in table order. *)
Definition get_businesses_needing_analysis (limit : nat) (now : Z)
    (rows : list Business) : list Business :=
  let cutoff := now - Py.timedelta_days 7 in
  take limit (filter (fun b => needs_analysis cutoff b = true) rows).

(** [session.query(Business).get(business_id)]: the position and the row of
    that primary key. *)
Fixpoint get (business_id : Z) (rows : list Business) : option (nat * Business) :=
  match rows with
  | [] => None
  | b :: rest =>
      if id b =? business_id then Some (0%nat, b)
      else match get business_id rest with
           | Some (i, x) => Some (S i, x)
           | None => None
           end
  end.

(** Lines 228-230. *)
Definition analyzed (score : Q) (now : Z) (b : Business) : Business :=
  {| id := id b;
     business_name := business_name b;
     instagram_username := instagram_username b;
     is_active := is_active b;
     last_analyzed := Some now;
     current_opportunity_score := Some score;
     analysis_count := analysis_count b + 1 |}.

(** [update_business_analysis(business_id, score)], lines 220-233. *)
Definition update_business_analysis (business_id : Z) (score : Q) (now : Z)
    (rows : list Business) : bool * list Business :=
  match get business_id rows with
  | None => (false, rows)
  | Some (i, business) => (true, <[i := analyzed score now business]> rows)
  end.

Definition shop (i : Z) (u : option string) (active : bool) (t : option Z)
    : Business :=
  {| id := i; business_name := "shop"; instagram_username := u;
     is_active := active; last_analyzed := t;
     current_opportunity_score := None; analysis_count := 0 |}.

End Businesses.

(** ** app/models/database_manager.py: the profiles table *)

Module Profiles.

(** The dict the callers pass to [add_profile] (api_server.py lines
    157-164, scheduler.py lines 45-52, cli.py lines 35-42). *)
Record ProfileSummary : Type := {
  username : string;
  full_name : string;
  followers : Z;
  following : Z;
  total_posts : Z;
  is_business : bool
}.

(** A row of [instagram_profiles] (app/models/instagram_profile.py): the
    columns those dicts fill and the two timestamps. *)
Record InstagramProfile : Type := {
  data : ProfileSummary;
  first_crawled : Z;
  last_crawled : Z
}.

(** [.filter_by(username=...).first()]: position and row. *)
Fixpoint existing (u : string) (rows : list InstagramProfile)
    : option (nat * InstagramProfile) :=
  match rows with
  | [] => None
  | p :: rest =>
      if decide (username (data p) = u) then Some (0%nat, p)
      else match existing u rest with
           | Some (i, x) => Some (S i, x)
           | None => None
           end
  end.

(** [add_profile(profile_data)], app/models/database_manager.py lines
    21-40.  [now] is the [datetime.utcnow()] of line 32; [created] and
    [crawled] are what the two column defaults give a new row. *)
Definition add_profile (profile_data : ProfileSummary) (now created crawled : Z)
    (rows : list InstagramProfile) : InstagramProfile * list InstagramProfile :=
  match existing (username profile_data) rows with
  | Some (i, p) =>
      let profile :=
        {| data := profile_data;
           first_crawled := first_crawled p;
           last_crawled := now |} in
      (profile, <[i := profile]> rows)
  | None =>
      let profile :=
        {| data := profile_data;
           first_crawled := created;
           last_crawled := crawled |} in
      (profile, rows ++ [profile])
  end.

(** [get_profile(username)], database.py lines 139-144. *)
Definition get_profile (u : string) (rows : list InstagramProfile)
    : option InstagramProfile :=
  match existing u rows with
  | Some (_, p) => Some p
  | None => None
  end.

Definition summary (u : string) (n : Z) : ProfileSummary :=
  {| username := u; full_name := u; followers := n; following := 10;
     total_posts := 25; is_business := true |}.

End Profiles.

(** ** api_server.py *)

Module Api.

(** One element of what [asyncio.gather(..., return_exceptions=True)]
    yields: the exception a task raised, or the dict it returned. *)
Inductive Gathered : Type :=
| Exc (message : string)
| Val (results : Analyzer.Result).

(** The process state the handlers share: the module-level
    [analysis_cache], the analyses handed to [store_analysis_in_db], and
    the usernames submitted to the executor, both in order. *)
Record Server : Type := {
  analysis_cache : gmap string Analyzer.Analysis;
  stored : list Analyzer.Analysis;
  executor_calls : list string
}.

Record BatchAnalyzeRequest : Type := {
  usernames : list string;
  min_opportunity_score : Q
}.

(** The response; an [AnalysisResponse] carries the fields of the report
    it is converted from, and is kept as that report. *)
Record BatchAnalysisResponse : Type := {
  success : bool;
  total_analyzed : nat;
  successful : nat;
  failed : nat;
  results : list Analyzer.Analysis;
  errors : option (list (string * string))
}.

(** Seconds of freshness (line 136), in microseconds. *)
Definition FRESH : Z := 86400 * 1000000.

(** What an endpoint answers: the body of a 200, or the status and detail
    of the [HTTPException] it raises. *)
Inductive Http (A : Type) : Type :=
| Ok200 (body : A)
| Error (status : Z) (detail : string).
Arguments Ok200 {A} body.
Arguments Error {A} status detail.

Section WithAnalyzer.

(** [analyzer.analyze_username] as run in the executor at a given
    instant: what it returns, or the message of what it raises. *)
Variable analyze_username : Z -> string -> Gathered.

(** Lines 132-137: the cached dict, when it is there, not bypassed and
    younger than 24 hours. *)
Definition cache_hit (now : Z) (username : string) (force_refresh : bool)
    (cache : gmap string Analyzer.Analysis) : option Analyzer.Analysis :=
  if negb force_refresh then
    match cache !! username with
    | Some cached =>
        let cache_age := now - Analyzer.analyzed_at cached in
        if cache_age <? FRESH then Some cached else None
    | None => None
    end
  else None.

(** Lines 139-150: run the analysis, cache and store a result that has
    no ['error']. *)
Definition run_analysis (now : Z) (username : string) (s : Server)
    : Gathered * Server :=
  let calls := executor_calls s ++ [username] in
  match analyze_username now username with
  | Exc msg =>
      (Exc msg, {| analysis_cache := analysis_cache s;
                   stored := stored s;
                   executor_calls := calls |})
  | Val (Analyzer.Report a) =>
      (Val (Analyzer.Report a),
       {| analysis_cache := <[username := a]> (analysis_cache s);
          stored := stored s ++ [a];
          executor_calls := calls |})
  | Val (Analyzer.ErrorResult e sc) =>
      (Val (Analyzer.ErrorResult e sc),
       {| analysis_cache := analysis_cache s;
          stored := stored s;
          executor_calls := calls |})
  end.

(** [analyze_profile_async(username, force_refresh)]. *)
Definition analyze_profile_async (now : Z) (username : string)
    (force_refresh : bool) (s : Server) : Gathered * Server :=
  match cache_hit now username force_refresh (analysis_cache s) with
  | Some cached => (Val (Analyzer.Report cached), s)
  | None => run_analysis now username s
  end.

(** [asyncio.gather] over one task per username.  Every task runs up
    to its first [await] before any executor call completes, so every
    cache check sees the cache the batch started with; completions are
    taken in request order. *)
Fixpoint gather (now : Z) (cache0 : gmap string Analyzer.Analysis)
    (names : list string) (s : Server) : list Gathered * Server :=
  match names with
  | [] => ([], s)
  | username :: rest =>
      let '(analysis, s1) :=
        match cache_hit now username false cache0 with
        | Some cached => (Val (Analyzer.Report cached), s)
        | None => run_analysis now username s
        end in
      let '(analyses, s2) := gather now cache0 rest s1 in
      (analysis :: analyses, s2)
  end.

(** Lines 265-279: the loop over [zip(usernames, analyses)]. *)
Fixpoint collect (min_score : Q) (pairs : list (string * Gathered))
    (results : list Analyzer.Analysis) (errors : list (string * string))
    : list Analyzer.Analysis * list (string * string) :=
  match pairs with
  | [] => (results, errors)
  | (username, analysis) :: rest =>
      match analysis with
      | Exc msg => collect min_score rest results (errors ++ [(username, msg)])
      | Val (Analyzer.ErrorResult e _) =>
          collect min_score rest results (errors ++ [(username, e)])
      | Val (Analyzer.Report a) =>
          if Py.leb min_score (Analyzer.opportunity_score a)
          then collect min_score rest (results ++ [a]) errors
          else collect min_score rest results errors
      end
  end.

(** [batch_analyze_profiles(request)]. *)
Definition batch_analyze_profiles (now : Z) (request : BatchAnalyzeRequest)
    (s : Server) : BatchAnalysisResponse * Server :=
  let '(analyses, s') := gather now (analysis_cache s) (usernames request) s in
  let '(results, errors) :=
    collect (min_opportunity_score request)
            (zip (usernames request) analyses) [] [] in
  let results := Py.sort_desc Analyzer.opportunity_score results in
  ({| success := true;
      total_analyzed := length (usernames request);
      successful := length results;
      failed := length errors;
      results := results;
      errors := if Py.truthy errors then Some errors else None |},
   s').

(** [analyze_single_profile(request)], lines 227-246. *)
Definition analyze_single_profile (now : Z) (username : string)
    (force_refresh : bool) (s : Server) : Http Analyzer.Analysis * Server :=
  let '(results, s') := analyze_profile_async now username force_refresh s in
  match results with
  | Exc msg => (Error 500 msg, s')
  | Val (Analyzer.ErrorResult e _) => (Error 404 e, s')
  | Val (Analyzer.Report a) => (Ok200 a, s')
  end.

End WithAnalyzer.

(** [clear_cache()], lines 396-407: the count it reports and the server
    with an empty cache. *)
Definition clear_cache (s : Server) : nat * Server :=
  let count := size (analysis_cache s) in
  (count, {| analysis_cache := ∅;
             stored := stored s;
             executor_calls := executor_calls s |}).

(** [cached_profiles] of [cache_stats()], line 415, and [cache_size] of
    [health_check()], line 223. *)
Definition cached_profiles (s : Server) : nat := size (analysis_cache s).

(** Sample data: a report with a given score and timestamp, a server
    that has just started, an analyzer that cannot reach the platform, and
    one for which only the profile "down" fails. *)
Definition sample (u : string) (score : Q) (t : Z) : Analyzer.Analysis :=
  {| Analyzer.res_username := u;
     Analyzer.res_full_name := u;
     Analyzer.res_followers := 1200;
     Analyzer.res_following := 300;
     Analyzer.posts := 40;
     Analyzer.res_is_business := false;
     Analyzer.res_engagement_rate := 1;
     Analyzer.average_likes := 11;
     Analyzer.average_comments := 1;
     Analyzer.posting_frequency := "weekly";
     Analyzer.avg_posting_interval_days := 6;
     Analyzer.res_last_post_days := 2;
     Analyzer.growth_potential := "medium";
     Analyzer.issues := [];
     Analyzer.recommendations := [];
     Analyzer.opportunity_score := score;
     Analyzer.analyzed_at := t |}.

Definition empty_server : Server :=
  {| analysis_cache := ∅; stored := []; executor_calls := [] |}.

Definition offline (now : Z) (u : string) : Gathered :=
  Val (Analyzer.ErrorResult ("Could not fetch profile @" +:+ u) None).

Definition flaky (now : Z) (u : string) : Gathered :=
  if String.eqb u "down" then Exc "ConnectionError"
  else if String.eqb u "big" then Val (Analyzer.Report (sample u 9 now))
  else Val (Analyzer.Report (sample u 6 now)).

End Api.

(** ** scheduler.py *)

Module Scheduler.

(** A row of [crawl_jobs] (app/models/crawl_job.py), the columns the
    scheduler reads or writes. *)
Record CrawlJob : Type := {
  id : Z;
  name : string;
  frequency : string;
  min_opportunity_score : Q;
  is_active : bool;
  last_run : option Z;
  next_run : option Z;
  profiles_found : Z
}.

(** A [Business] row as the job loop sees it. *)
Record Business : Type := {
  instagram_username : option string
}.

(** The clock read so far and the [crawl_jobs] table. *)
Record World : Type := {
  clock_reads : nat;
  crawl_jobs : list CrawlJob
}.

(** The two ways [run_crawl_job] ends: the log lines of 129-131, or the
    [except] of line 133. *)
Inductive Outcome : Type :=
| Completed (analyzed_count opportunities_found : Z)
| Errored.

Section WithEnvironment.

(** The successive values of [datetime.now()]. *)
Variable clock : nat -> Z.

(** [self.db.search_businesses(...)] for a job; [None] when it raises (as
    it must with the [DatabaseManager] of database.py, which has no such
    method; the one of app/models/database_manager.py has it). *)
Variable search_businesses : CrawlJob -> option (list Business).

(** [self.analyze_and_store(username)], which fetches, analyzes and
    writes the profile and analysis tables (not modelled here): from the
    number of clock reads so far, an analysis or [None], and the number
    of clock reads after it. *)
Variable analyze_and_store : string -> nat -> option Analyzer.Analysis * nat.

Definition datetime_now (w : World) : Z * World :=
  (clock (clock_reads w),
   {| clock_reads := S (clock_reads w); crawl_jobs := crawl_jobs w |}).

(** [_calculate_next_run(frequency)], lines 136-147. *)
Definition _calculate_next_run (frequency : string) (w : World) : Z * World :=
  let '(now, w) := datetime_now w in
  if String.eqb frequency "daily" then (now + Py.timedelta_days 1, w)
  else if String.eqb frequency "weekly" then (now + Py.timedelta_weeks 1, w)
  else if String.eqb frequency "monthly" then (now + Py.timedelta_days 30, w)
  else (now + Py.timedelta_weeks 1, w).

(** Lines 98-114: the loop over the businesses found ([time.sleep] only
    lets the clock run). *)
Fixpoint analyze_businesses (job : CrawlJob) (businesses : list Business)
    (analyzed_count opportunities_found : Z) (reads : nat) : Z * Z * nat :=
  match businesses with
  | [] => (analyzed_count, opportunities_found, reads)
  | business :: rest =>
      match instagram_username business with
      | None => analyze_businesses job rest analyzed_count opportunities_found reads
      | Some "" => analyze_businesses job rest analyzed_count opportunities_found reads
      | Some username =>
          let '(analysis, reads) := analyze_and_store username reads in
          match analysis with
          | Some a =>
              let opportunities_found :=
                if Py.leb (min_opportunity_score job) (Analyzer.opportunity_score a)
                then opportunities_found + 1 else opportunities_found in
              analyze_businesses job rest (analyzed_count + 1) opportunities_found reads
          | None => analyze_businesses job rest analyzed_count opportunities_found reads
          end
      end
  end.

(** Lines 118-126: [UPDATE crawl_jobs SET ... WHERE id = job.id]. *)
Definition update_job (job_id : Z) (last next : Z) (found : Z)
    (jobs : list CrawlJob) : list CrawlJob :=
  map (fun j =>
         if id j =? job_id then
           {| id := id j; name := name j; frequency := frequency j;
              min_opportunity_score := min_opportunity_score j;
              is_active := is_active j;
              last_run := Some last; next_run := Some next;
              profiles_found := found |}
         else j)
      jobs.

(** [run_crawl_job(job)]. *)
Definition run_crawl_job (job : CrawlJob) (w : World) : Outcome * World :=
  match search_businesses job with
  | None => (Errored, w)
  | Some businesses =>
      let '(analyzed_count, opportunities_found, reads) :=
        analyze_businesses job businesses 0 0 (clock_reads w) in
      let w := {| clock_reads := reads; crawl_jobs := crawl_jobs w |} in
      let '(last, w) := datetime_now w in
      let '(next, w) := _calculate_next_run (frequency job) w in
      (Completed analyzed_count opportunities_found,
       {| clock_reads := clock_reads w;
          crawl_jobs := update_job (id job) last next analyzed_count (crawl_jobs w) |})
  end.

(** Line 158: [job.next_run is None or job.next_run <= now]. *)
Definition due (now : Z) (job : CrawlJob) : bool :=
  match next_run job with
  | None => true
  | Some t => t <=? now
  end.

(** Lines 156-159: the loop of [check_and_run_jobs] over the jobs read
    at its start. *)
Fixpoint run_due_jobs (now : Z) (jobs : list CrawlJob) (w : World) : World :=
  match jobs with
  | [] => w
  | job :: rest =>
      let w := if due now job then snd (run_crawl_job job w) else w in
      run_due_jobs now rest w
  end.

(** [check_and_run_jobs()], lines 149-159; [get_active_jobs] is
    [filter_by(is_active=True)]. *)
Definition check_and_run_jobs (w : World) : World :=
  let jobs := filter (fun j => is_active j = true) (crawl_jobs w) in
  let '(now, w) := datetime_now w in
  run_due_jobs now jobs w.

End WithEnvironment.

(** Lines 178-186 of [generate_weekly_report]: the opportunities of the
    last 7 days that are not contacted yet; [now] is [datetime.now()]. *)
Definition recent_opportunities (now : Z) (rows : list Store.AnalysisHistory)
    : list Store.AnalysisHistory :=
  let one_week_ago := now - Py.timedelta_days 7 in
  let opportunities := Store.get_top_opportunities 6 50 rows in
  filter (fun opp => one_week_ago <= Store.analyzed_at opp /\
                     Store.contacted opp = false)
         opportunities.

(** Sample data: a weekly job, a clock that advances by one microsecond
    between two reads, a search that finds nothing, and an analysis that
    always fails. *)
Definition weekly_job : CrawlJob :=
  {| id := 1; name := "cafes"; frequency := "weekly";
     min_opportunity_score := 5; is_active := true;
     last_run := None; next_run := None; profiles_found := 0 |}.

Definition ticking (n : nat) : Z := Z.of_nat n.

Definition no_business (job : CrawlJob) : option (list Business) := Some [].

Definition no_analysis (username : string) (reads : nat)
    : option Analyzer.Analysis * nat := (None, S reads).

(** More sample data: a daily job that asks for a score of 7, a search
    that finds four businesses (one of them without an Instagram
    username), and an analysis that fails for "down", scores 9 for "big"
    and 6 for every other profile. *)
Definition selective_job : CrawlJob :=
  {| id := 3; name := "gyms"; frequency := "daily";
     min_opportunity_score := 7; is_active := true;
     last_run := None; next_run := None; profiles_found := 0 |}.

Definition four_businesses (job : CrawlJob) : option (list Business) :=
  Some [ {| instagram_username := Some "big" |};
         {| instagram_username := None |};
         {| instagram_username := Some "small" |};
         {| instagram_username := Some "down" |} ].

Definition some_analysis (username : string) (reads : nat)
    : option Analyzer.Analysis * nat :=
  if String.eqb username "down" then (None, S reads)
  else if String.eqb username "big"
       then (Some (Api.sample username 9 (ticking reads)), S reads)
       else (Some (Api.sample username 6 (ticking reads)), S reads).

End Scheduler.

(** * Properties *)

(** ** Facts about the Python arithmetic *)

Module PyFacts.

Lemma ltb_lt (a b : Q) : Py.ltb a b = true <-> (a < b)%Q.
Proof.
  unfold Py.ltb. rewrite negb_true_iff. split.
  - intros H. apply Qnot_le_lt. intros Hle.
    apply Qle_bool_iff in Hle. congruence.
  - intros H. destruct (Qle_bool b a) eqn:E; [|reflexivity].
    apply Qle_bool_iff in E. exfalso. exact (Qlt_not_le _ _ H E).
Qed.

Lemma ltb_ge (a b : Q) : Py.ltb a b = false <-> (b <= a)%Q.
Proof.
  unfold Py.ltb. rewrite negb_false_iff. apply Qle_bool_iff.
Qed.

Lemma leb_le (a b : Q) : Py.leb a b = true <-> (a <= b)%Q.
Proof. apply Qle_bool_iff. Qed.

Lemma leb_gt (a b : Q) : Py.leb a b = false <-> (b < a)%Q.
Proof.
  unfold Py.leb. split.
  - intros H. apply Qnot_le_lt. intros Hle.
    apply Qle_bool_iff in Hle. congruence.
  - intros H. destruct (Qle_bool a b) eqn:E; [|reflexivity].
    apply Qle_bool_iff in E. exfalso. exact (Qlt_not_le _ _ H E).
Qed.

#[global] Instance ltb_proper : Proper (Qeq ==> Qeq ==> eq) Py.ltb.
Proof. intros a a' Ha b b' Hb. unfold Py.ltb. now rewrite Ha, Hb. Qed.

#[global] Instance leb_proper : Proper (Qeq ==> Qeq ==> eq) Py.leb.
Proof. intros a a' Ha b b' Hb. unfold Py.leb. now rewrite Ha, Hb. Qed.

#[global] Instance round_half_even_proper :
  Proper (Qeq ==> eq) Py.round_half_even.
Proof.
  intros x y H. unfold Py.round_half_even.
  rewrite (Qfloor_comp _ _ H).
  assert (E : (x - inject_Z (Qfloor y) == y - inject_Z (Qfloor y))%Q)
    by now rewrite H.
  now rewrite (Qcompare_comp _ _ E _ _ (Qeq_refl (1 # 2))).
Qed.

#[global] Instance round_proper : Proper (Qeq ==> eq ==> eq) Py.round.
Proof.
  intros x y H n ? <-. unfold Py.round.
  assert (E : (x * inject_Z (10 ^ Z.of_nat n) == y * inject_Z (10 ^ Z.of_nat n))%Q)
    by now rewrite H.
  now rewrite (round_half_even_proper _ _ E).
Qed.

Lemma round_half_even_nonneg (x : Q) :
  (0 <= x)%Q -> 0 <= Py.round_half_even x.
Proof.
  intros H. unfold Py.round_half_even.
  assert (Hf : 0 <= Qfloor x).
  { change 0 with (Qfloor (inject_Z 0)). now apply Qfloor_resp_le. }
  destruct (Qcompare _ _); [destruct (Z.even _)| |]; lia.
Qed.

Lemma round_nonneg (x : Q) (n : nat) : (0 <= x)%Q -> (0 <= Py.round x n)%Q.
Proof.
  intros H. unfold Py.round.
  assert (Hs : (0 < inject_Z (10 ^ Z.of_nat n))%Q).
  { change 0%Q with (inject_Z 0). rewrite <- Zlt_Qlt.
    apply Z.pow_pos_nonneg; lia. }
  apply Qle_shift_div_l; [exact Hs|].
  rewrite Qmult_0_l. change 0%Q with (inject_Z 0). rewrite <- Zle_Qle.
  apply round_half_even_nonneg.
  apply Qmult_le_0_compat; [exact H | now apply Qlt_le_weak].
Qed.

Lemma truediv_nonzero (a b : Q) :
  ~ (b == 0)%Q -> Py.truediv a b = inr (a / b)%Q.
Proof.
  intros H. unfold Py.truediv.
  destruct (Qeq_bool b 0) eqn:E; [|reflexivity].
  apply Qeq_bool_eq in E. contradiction.
Qed.

Lemma inject_Z_nonzero (z : Z) : z <> 0 -> ~ (inject_Z z == 0)%Q.
Proof.
  intros H E. unfold Qeq in E. simpl in E. lia.
Qed.

Lemma sum_nonneg (l : list Z) : Forall (fun z => 0 <= z) l -> 0 <= Py.sum l.
Proof. induction 1; simpl; lia. Qed.

(** [sort_desc] permutes its argument into descending order of key. *)
Lemma insert_desc_perm {A : Type} (key : A -> Q) (x : A) (l : list A) :
  Permutation (Py.insert_desc key x l) (x :: l).
Proof.
  induction l as [|y l IH]; cbn [Py.insert_desc]; [reflexivity|].
  destruct (Py.leb (key y) (key x)); [reflexivity|].
  rewrite IH. apply perm_swap.
Qed.

Lemma sort_desc_perm {A : Type} (key : A -> Q) (l : list A) :
  Permutation (Py.sort_desc key l) l.
Proof.
  induction l as [|x l IH]; [reflexivity|].
  unfold Py.sort_desc. cbn [fold_right]. rewrite insert_desc_perm.
  now apply perm_skip.
Qed.

Lemma insert_desc_sorted {A : Type} (key : A -> Q) (x : A) (l : list A) :
  Sorted (fun a b => (key b <= key a)%Q) l ->
  Sorted (fun a b => (key b <= key a)%Q) (Py.insert_desc key x l).
Proof.
  induction 1 as [|y l Hl IH Hhd]; cbn [Py.insert_desc].
  - repeat constructor.
  - destruct (Py.leb (key y) (key x)) eqn:E.
    + constructor; [now constructor|]. constructor. now apply leb_le.
    + apply leb_gt in E. constructor; [exact IH|].
      destruct Hhd as [|z l Hz]; cbn [Py.insert_desc].
      * constructor. now apply Qlt_le_weak.
      * destruct (Py.leb (key z) (key x)); constructor;
          [now apply Qlt_le_weak | exact Hz].
Qed.

Lemma sort_desc_sorted {A : Type} (key : A -> Q) (l : list A) :
  Sorted (fun a b => (key b <= key a)%Q) (Py.sort_desc key l).
Proof.
  induction l as [|x l IH]; [constructor|].
  unfold Py.sort_desc. cbn [fold_right]. now apply insert_desc_sorted.
Qed.

End PyFacts.

(** ** The analyzer *)

Module AnalyzerFacts.
Import Analyzer.

(** Closes a goal about rational or integer literals. *)
Ltac literal :=
  vm_compute;
  first [ reflexivity | discriminate | (intro; discriminate)
        | (split; first [ reflexivity | discriminate | (intro; discriminate) ]) ].

(** Splits on every condition that a goal still branches on. *)
Ltac branches :=
  repeat match goal with
         | |- context [if ?c then _ else _] => destruct c
         end.

Lemma length_posts_nonzero (p : Post) (ps : list Post) :
  ~ (inject_Z (Z.of_nat (length (p :: ps))) == 0)%Q.
Proof. apply PyFacts.inject_Z_nonzero. simpl length. lia. Qed.

(** The metrics of a non-empty sample are computed without raising, and
    are the expected quotients. *)
Lemma compute_metrics_nonempty (pd : ProfileData) (p : Post) (ps : list Post)
    (now : Z) :
  exists m,
    compute_metrics pd (p :: ps) now = inr m /\
    avg_likes m =
      (inject_Z (Py.sum (map likes (p :: ps)))
       / inject_Z (Z.of_nat (length (p :: ps))))%Q /\
    avg_comments m =
      (inject_Z (Py.sum (map comments (p :: ps)))
       / inject_Z (Z.of_nat (length (p :: ps))))%Q /\
    engagement_rate m =
      (if 0 <? followers pd
       then ((avg_likes m + avg_comments m) / inject_Z (followers pd) * 100)%Q
       else 0%Q) /\
    last_post_days m = Py.days (now - date p).
Proof.
  unfold compute_metrics.
  change (Py.truthy (p :: ps)) with true. cbv iota.
  rewrite !(PyFacts.truediv_nonzero _ _ (length_posts_nonzero p ps)).
  cbn [Py.bind].
  destruct (0 <? followers pd) eqn:Hf.
  - rewrite PyFacts.truediv_nonzero
      by (apply PyFacts.inject_Z_nonzero; apply Z.ltb_lt in Hf; lia).
    cbn [Py.bind Py.ret].
    destruct ps as [|q qs].
    + cbn. eexists. split; [reflexivity|]. cbn. auto.
    + cbn. eexists. split; [reflexivity|]. cbn. auto.
  - cbn [Py.bind Py.ret].
    destruct ps as [|q qs].
    + cbn. eexists. split; [reflexivity|]. cbn. auto.
    + cbn. eexists. split; [reflexivity|]. cbn. auto.
Qed.

(** On every input [compute_metrics] returns: no division by zero, no
    empty mean. *)
Lemma compute_metrics_total (pd : ProfileData) (posts : list Post) (now : Z) :
  exists m, compute_metrics pd posts now = inr m.
Proof.
  destruct posts as [|p ps].
  - unfold compute_metrics. cbn.
    destruct (0 <? followers pd) eqn:Hf.
    + rewrite PyFacts.truediv_nonzero
        by (apply PyFacts.inject_Z_nonzero; apply Z.ltb_lt in Hf; lia).
      cbn. eauto.
    + cbn. eauto.
  - destruct (compute_metrics_nonempty pd p ps now) as (m & H & _). eauto.
Qed.

Lemma analyze_profile_nonempty (pd : ProfileData) (posts : list Post)
    (now stamp : Z) (m : Metrics) :
  recent_posts pd = Some posts ->
  posts <> [] ->
  compute_metrics pd posts now = inr m ->
  analyze_profile (Some pd) now stamp = inr (Report (build_report pd m stamp)).
Proof.
  intros Hp Hne Hm. unfold analyze_profile. rewrite Hp.
  destruct posts as [|p ps]; [congruence|].
  rewrite Hm. reflexivity.
Qed.

(** The unclamped score is 5 plus at most 5.5, a multiple of one half, so
    rounding to one decimal leaves it as it is. *)
Lemma raw_score_bounds (pd : ProfileData) (m : Metrics) :
  (5 <= raw_score pd m <= 5 + (11 # 2))%Q /\
  (Py.round (raw_score pd m) 1 == raw_score pd m)%Q /\
  Py.max 1 (Py.round (raw_score pd m) 1) = Py.round (raw_score pd m) 1 /\
  (5 <= clamp_score (raw_score pd m) <= 10)%Q.
Proof.
  unfold clamp_score, raw_score, add_if.
  branches; repeat split; literal.
Qed.


End AnalyzerFacts.

Module AnalyzerProps.
Import Analyzer AnalyzerFacts.

(** C1 (as amended).  For followers = 1000, following = 2000,
    total_posts = 5, average likes 5, average comments 0.2, average posting
    interval 12 days, last post 10 days ago and no business flag,
    [analyze_profile] reports engagement rate 0.52, exactly the five issues
    low engagement, inconsistent posting, inactive account (10 days),
    over-following and limited content library, growth tier "low", and
    opportunity score 9.0 = 5 + 1.5 + 1.5 + 1.0: the rule
    [followers > 1000 and engagement_rate < 2.5] is strict in the follower
    count and adds nothing at exactly 1000 followers. *)
Theorem scenario_analysis :
  forall (pd : ProfileData) (posts : list Post) (now stamp : Z) (m : Metrics),
    compute_metrics pd posts now = inr m ->
    recent_posts pd = Some posts ->
    posts <> [] ->
    followers pd = 1000 ->
    following pd = 2000 ->
    total_posts pd = 5 ->
    is_business pd = false ->
    (avg_likes m == 5)%Q ->
    (avg_comments m == 2 # 10)%Q ->
    (avg_posting_interval m == 12)%Q ->
    last_post_days m = 10 ->
    exists r,
      analyze_profile (Some pd) now stamp = inr (Report r) /\
      (res_engagement_rate r == 52 # 100)%Q /\
      issues r = [ ISSUE_LOW_ENGAGEMENT; ISSUE_INCONSISTENT_POSTING;
                   ISSUE_INACTIVE 10; ISSUE_OVER_FOLLOWING;
                   ISSUE_LIMITED_CONTENT ] /\
      growth_potential r = "low" /\
      (opportunity_score r == 9)%Q.
Proof.
  intros pd posts now stamp m Hm Hp Hne Hf Hg Ht Hb Hal Hac Hi Hl.
  exists (build_report pd m stamp).
  split; [now apply (analyze_profile_nonempty pd posts)|].
  assert (Her : (engagement_rate m == 52 # 100)%Q).
  { destruct posts as [|p ps]; [congruence|].
    destruct (compute_metrics_nonempty pd p ps now) as (m' & Hm' & _ & _ & He & _).
    rewrite Hm in Hm'. injection Hm' as <-.
    rewrite He, Hf. cbn [Z.ltb Z.compare]. rewrite Hal, Hac. literal. }
  assert (B1 : Py.ltb (engagement_rate m) 2 = true)
    by (rewrite Her; reflexivity).
  assert (B2 : Py.ltb 5 (avg_posting_interval m) = true)
    by (rewrite Hi; reflexivity).
  assert (B3 : Py.ltb (avg_comments m) (avg_likes m * (2 # 100)) = false)
    by (rewrite Hal, Hac; reflexivity).
  assert (B4 : Py.ltb (engagement_rate m) (3 # 2) = true)
    by (rewrite Her; reflexivity).
  assert (B5 : Py.ltb 7 (avg_posting_interval m) = true)
    by (rewrite Hi; reflexivity).
  assert (B6 : Py.ltb (engagement_rate m) (5 # 2) = true)
    by (rewrite Her; reflexivity).
  unfold build_report; cbn [res_engagement_rate issues growth_potential
                             opportunity_score].
  repeat split.
  - rewrite Her. literal.
  - unfold all_issues. cbv zeta.
    rewrite B1, B2, B3, Hl, Hf, Hg, Ht. reflexivity.
  - unfold growth_potential_of. rewrite B4, B5. reflexivity.
  - unfold clamp_score, raw_score. cbv zeta.
    rewrite B1, B2, B6, Hl, Hf, Hb. literal.
Qed.

(** The scenario is realised by a concrete profile of five posts. *)
Lemma scenario_analysis_witness :
  exists r,
    analyze_profile (Some scenario_profile) scenario_now 0 = inr (Report r) /\
    (res_engagement_rate r == 52 # 100)%Q /\
    issues r = [ ISSUE_LOW_ENGAGEMENT; ISSUE_INCONSISTENT_POSTING;
                 ISSUE_INACTIVE 10; ISSUE_OVER_FOLLOWING;
                 ISSUE_LIMITED_CONTENT ] /\
    growth_potential r = "low" /\
    (opportunity_score r == 9)%Q.
Proof.
  eapply (scenario_analysis scenario_profile scenario_posts scenario_now 0).
  - vm_compute. reflexivity.
  - reflexivity.
  - discriminate.
  - reflexivity.
  - reflexivity.
  - reflexivity.
  - reflexivity.
  - vm_compute. reflexivity.
  - vm_compute. reflexivity.
  - vm_compute. reflexivity.
  - vm_compute. reflexivity.
Defined.

(** C1 as written fails: on the scenario the score is not 10.0. *)
Lemma scenario_score_is_not_ten :
  ~ (exists r,
       analyze_profile (Some scenario_profile) scenario_now 0 = inr (Report r) /\
       (opportunity_score r == 10)%Q).
Proof.
  intros (r & Hr & Hs).
  vm_compute in Hr. injection Hr as <-.
  vm_compute in Hs. discriminate.
Qed.



(** C7.  When the post sequence is empty or missing (or there is no
    profile data at all) [analyze_profile] computes nothing and returns,
    without raising, the insufficient-data result, whose opportunity score
    is 0. *)
Theorem insufficient_data :
  forall (pd : ProfileData) (now stamp : Z),
    recent_posts pd = None \/ recent_posts pd = Some [] ->
    analyze_profile (Some pd) now stamp
      = inr (ErrorResult "Insufficient data for analysis" (Some 0%Q)) /\
    analyze_profile None now stamp
      = inr (ErrorResult "Insufficient data for analysis" (Some 0%Q)) /\
    (forall r, analyze_profile (Some pd) now stamp = inr r ->
               has_error r = true /\ result_score r = Some 0%Q).
Proof.
  intros pd now stamp H.
  assert (E : analyze_profile (Some pd) now stamp = inr INSUFFICIENT).
  { unfold analyze_profile. destruct H as [-> | ->]; reflexivity. }
  split; [exact E|]. split; [reflexivity|].
  intros r Hr. rewrite E in Hr. injection Hr as <-. split; reflexivity.
Qed.

Lemma insufficient_data_witness :
  analyze_profile
    (Some {| username := "new"; full_name := ""; followers := 12;
             following := 3; total_posts := 0; is_business := false;
             recent_posts := Some [] |}) 7 7
  = inr (ErrorResult "Insufficient data for analysis" (Some 0%Q)).
Proof.
  refine (proj1 (insufficient_data _ 7 7 _)).
  right. reflexivity.
Defined.

Lemma nonneg_quotient (a b : Z) :
  0 <= a -> 0 < b -> (0 <= inject_Z a / inject_Z b)%Q.
Proof.
  intros Ha Hb. apply Qle_shift_div_l.
  - change 0%Q with (inject_Z 0). now rewrite <- Zlt_Qlt.
  - rewrite Qmult_0_l. change 0%Q with (inject_Z 0). now rewrite <- Zle_Qle.
Qed.

(** Dividing by a positive number keeps the sign. *)
Lemma negative_quotient (x d : Q) :
  (0 < d)%Q -> ((x / d < 0)%Q <-> (x < 0)%Q).
Proof.
  intros Hd.
  assert (Hnz : ~ (d == 0)%Q) by (intros E; rewrite E in Hd; discriminate).
  split; intros H.
  - rewrite <- (Qmult_div_r x d Hnz).
    setoid_replace 0%Q with (d * 0)%Q using relation Qeq by ring.
    now apply Qmult_lt_l.
  - apply Qlt_shift_div_r; [exact Hd|]. now rewrite Qmult_0_l.
Qed.

(** The sign of the rate of a profile with followers is the sign of the
    likes and comments its posts sum to. *)
Lemma negative_rate_iff (pd : ProfileData) (p : Post) (ps : list Post)
    (m : Metrics) :
  0 < followers pd ->
  avg_likes m =
    (inject_Z (Py.sum (map likes (p :: ps)))
     / inject_Z (Z.of_nat (length (p :: ps))))%Q ->
  avg_comments m =
    (inject_Z (Py.sum (map comments (p :: ps)))
     / inject_Z (Z.of_nat (length (p :: ps))))%Q ->
  ((avg_likes m + avg_comments m) / inject_Z (followers pd) * 100 < 0)%Q <->
  Py.sum (map likes (p :: ps)) + Py.sum (map comments (p :: ps)) < 0.
Proof.
  intros Hpos Hal Hac. rewrite Hal, Hac.
  set (L := Py.sum (map likes (p :: ps))).
  set (C := Py.sum (map comments (p :: ps))).
  set (n := Z.of_nat (length (p :: ps))).
  assert (Hn : (0 < inject_Z n)%Q).
  { change 0%Q with (inject_Z 0). rewrite <- Zlt_Qlt. subst n.
    simpl length. lia. }
  assert (Hf : (0 < inject_Z (followers pd))%Q).
  { change 0%Q with (inject_Z 0). now rewrite <- Zlt_Qlt. }
  assert (Hnz : ~ (inject_Z n == 0)%Q)
    by (intros E; rewrite E in Hn; discriminate).
  assert (Hsum : (inject_Z L / inject_Z n + inject_Z C / inject_Z n
                  == inject_Z (L + C) / inject_Z n)%Q).
  { rewrite inject_Z_plus. now field. }
  rewrite Hsum.
  assert (H100 : forall x : Q, (x * 100 < 0)%Q <-> (x < 0)%Q).
  { intros x. split; intros H; lra. }
  rewrite H100, (negative_quotient _ _ Hf), (negative_quotient _ _ Hn).
  change 0%Q with (inject_Z 0). now rewrite <- Zlt_Qlt.
Qed.

(** C8 (as amended).  For every profile with a non-empty
    post sequence the metrics are computed without [ZeroDivisionError] (the
    division by [followers] is taken only when [followers > 0]); the
    engagement rate is 0 when [followers = 0] (and when [followers < 0]),
    and is [(avg_likes + avg_comments) / followers * 100] when
    [followers > 0].  It is never negative when no post carries a negative
    like or comment count, before and after the rounding of the report;
    the code does not check the counts, and with [followers > 0] the rate
    is negative exactly when the likes and comments of the posts sum to a
    negative number. *)
Theorem engagement_rate_safe :
  forall (pd : ProfileData) (posts : list Post) (now stamp : Z),
    recent_posts pd = Some posts ->
    posts <> [] ->
    exists m,
      compute_metrics pd posts now = inr m /\
      compute_metrics pd posts now <> inl Py.ZeroDivisionError /\
      analyze_profile (Some pd) now stamp
        = inr (Report (build_report pd m stamp)) /\
      (followers pd = 0 -> engagement_rate m = 0%Q) /\
      (followers pd <= 0 -> engagement_rate m = 0%Q) /\
      (0 < followers pd ->
       engagement_rate m
         = ((avg_likes m + avg_comments m) / inject_Z (followers pd) * 100)%Q) /\
      (Forall (fun p => 0 <= likes p /\ 0 <= comments p) posts ->
       (0 <= engagement_rate m)%Q /\
       (0 <= res_engagement_rate (build_report pd m stamp))%Q) /\
      (0 < followers pd ->
       ((engagement_rate m < 0)%Q <->
        Py.sum (map likes posts) + Py.sum (map comments posts) < 0)).
Proof.
  intros pd posts now stamp Hp Hne.
  destruct posts as [|p ps]; [congruence|].
  destruct (compute_metrics_nonempty pd p ps now)
    as (m & Hm & Hal & Hac & He & _).
  exists m. split; [exact Hm|]. split; [rewrite Hm; discriminate|].
  split; [now apply (analyze_profile_nonempty pd (p :: ps))|].
  assert (Hzero : followers pd <= 0 -> engagement_rate m = 0%Q).
  { intros H. rewrite He.
    destruct (0 <? followers pd) eqn:E; [apply Z.ltb_lt in E; lia | reflexivity]. }
  split; [intros H; apply Hzero; lia|]. split; [exact Hzero|].
  split.
  { intros H. rewrite He.
    destruct (0 <? followers pd) eqn:E; [reflexivity | apply Z.ltb_ge in E; lia]. }
  split; [|intros Hpos; rewrite He;
            apply Z.ltb_lt in Hpos as Hb; rewrite Hb; clear Hb;
            now apply negative_rate_iff].
  intros Hcounts.
  assert (Hnn : (0 <= engagement_rate m)%Q).
  { rewrite He. destruct (0 <? followers pd) eqn:E; [|apply Qle_refl].
    apply Z.ltb_lt in E.
    assert (Hl : (0 <= avg_likes m)%Q).
    { rewrite Hal. apply nonneg_quotient; [|simpl length; lia].
      apply PyFacts.sum_nonneg. apply Forall_map.
      eapply Forall_impl; [exact Hcounts|]. cbn. intros ? [? ?]. assumption. }
    assert (Hc : (0 <= avg_comments m)%Q).
    { rewrite Hac. apply nonneg_quotient; [|simpl length; lia].
      apply PyFacts.sum_nonneg. apply Forall_map.
      eapply Forall_impl; [exact Hcounts|]. cbn. intros ? [? ?]. assumption. }
    apply Qmult_le_0_compat; [|literal].
    apply Qle_shift_div_l.
    - change 0%Q with (inject_Z 0). now rewrite <- Zlt_Qlt.
    - rewrite Qmult_0_l.
      change (0 + 0 <= avg_likes m + avg_comments m)%Q.
      now apply Qplus_le_compat. }
  split; [exact Hnn|].
  cbn [build_report res_engagement_rate]. now apply PyFacts.round_nonneg.
Qed.

Lemma engagement_rate_safe_witness :
  exists m,
    compute_metrics scenario_profile scenario_posts scenario_now = inr m /\
    (0 <= engagement_rate m)%Q.
Proof.
  destruct (engagement_rate_safe scenario_profile scenario_posts scenario_now 0)
    as (m & Hm & _ & _ & _ & _ & _ & Hnn & _).
  - reflexivity.
  - discriminate.
  - exists m. split; [exact Hm|]. apply Hnn.
    repeat constructor; vm_compute; discriminate.
Defined.

(** C8 as written fails: a profile of 100 followers whose one post
    carries a like count of -1 has a non-empty post sequence, and its
    engagement rate, [(-1/1 + 0/1) / 100 * 100], is -1 in the metrics and
    in the report. *)
Lemma negative_count_gives_negative_rate :
  exists m,
    compute_metrics
      {| username := "shop"; full_name := "Shop"; followers := 100;
         following := 10; total_posts := 1; is_business := false;
         recent_posts := Some [ {| likes := -1; comments := 0; date := 0 |} ] |}
      [ {| likes := -1; comments := 0; date := 0 |} ] Py.DAY
    = inr m /\
    (engagement_rate m == -1)%Q /\
    (engagement_rate m < 0)%Q /\
    exists r,
      analyze_profile
        (Some {| username := "shop"; full_name := "Shop"; followers := 100;
                 following := 10; total_posts := 1; is_business := false;
                 recent_posts :=
                   Some [ {| likes := -1; comments := 0; date := 0 |} ] |})
        Py.DAY 0
      = inr (Report r) /\
      (res_engagement_rate r == -1)%Q /\
      (res_engagement_rate r < 0)%Q.
Proof.
  eexists. split; [vm_compute; reflexivity|].
  split; [vm_compute; reflexivity|]. split; [vm_compute; reflexivity|].
  eexists. split; [vm_compute; reflexivity|].
  split; vm_compute; reflexivity.
Qed.

(** C10.  For every profile with a non-empty post sequence the analysis
    returns a report whose opportunity score is at least 5.0: the score
    before clamping is base 5 plus bonuses that are never negative and sum
    to at most 5.5, so [max(1, ...)] leaves the rounded score as it is and
    the score lies in [5, 10]. *)
Theorem score_at_least_base :
  forall (pd : ProfileData) (posts : list Post) (now stamp : Z),
    recent_posts pd = Some posts ->
    posts <> [] ->
    exists m r,
      compute_metrics pd posts now = inr m /\
      analyze_profile (Some pd) now stamp = inr (Report r) /\
      (0 <= raw_score pd m - 5 <= 11 # 2)%Q /\
      Py.max 1 (Py.round (raw_score pd m) 1) = Py.round (raw_score pd m) 1 /\
      opportunity_score r = Py.min 10 (Py.round (raw_score pd m) 1) /\
      (5 <= opportunity_score r <= 10)%Q.
Proof.
  intros pd posts now stamp Hp Hne.
  destruct (compute_metrics_total pd posts now) as [m Hm].
  exists m, (build_report pd m stamp).
  destruct (raw_score_bounds pd m) as ([Hlo Hhi] & _ & Hmax & Hclamp).
  split; [exact Hm|].
  split; [now apply (analyze_profile_nonempty pd posts)|].
  split; [|split; [exact Hmax|split]].
  - split.
    + unfold Qminus. rewrite <- (Qplus_opp_r 5).
      apply Qplus_le_compat; [exact Hlo | apply Qle_refl].
    + apply Qplus_le_l with (z := 5%Q).
      setoid_replace (raw_score pd m - 5 + 5)%Q with (raw_score pd m)
        using relation Qeq by ring.
      setoid_replace ((11 # 2) + 5)%Q with (5 + (11 # 2))%Q
        using relation Qeq by ring.
      exact Hhi.
  - cbn [build_report opportunity_score]. unfold clamp_score.
    now rewrite Hmax.
  - exact Hclamp.
Qed.

Lemma score_at_least_base_witness :
  exists r,
    analyze_profile (Some scenario_profile) scenario_now 0 = inr (Report r) /\
    (5 <= opportunity_score r <= 10)%Q.
Proof.
  destruct (score_at_least_base scenario_profile scenario_posts scenario_now 0)
    as (m & r & _ & Hr & _ & _ & _ & Hs).
  - reflexivity.
  - discriminate.
  - exists r. split; [exact Hr | exact Hs].
Defined.

End AnalyzerProps.

(** ** The store *)

Module StoreFacts.
Import Store.

Lemma newest_none (u : string) (rows : Table) :
  newest u rows = None <-> Forall (fun r => username r <> u) rows.
Proof.
  induction rows as [|r rest IH]; simpl.
  - split; [constructor | reflexivity].
  - destruct (decide (username r = u)) as [E|E].
    + split.
      * destruct (newest u rest) as [[i x]|]; [destruct (_ <? _)|]; discriminate.
      * intros H. inversion H; subst. contradiction.
    + destruct (newest u rest) as [[i x]|].
      * split; [discriminate|].
        intros H. inversion H as [|? ? _ Hrest]; subst.
        apply IH in Hrest. discriminate.
      * split; [|reflexivity].
        intros _. constructor; [exact E | now apply IH].
Qed.

(** [newest] selects a row of the username whose [analyzed_at] no other
    row of that username exceeds. *)
Lemma newest_some (u : string) (rows : Table) (i : nat) (a : AnalysisHistory) :
  newest u rows = Some (i, a) ->
  rows !! i = Some a /\
  username a = u /\
  Forall (fun r => username r = u -> analyzed_at r <= analyzed_at a) rows.
Proof.
  revert i a. induction rows as [|r rest IH]; simpl; intros i a H.
  - discriminate.
  - destruct (newest u rest) as [[j x]|] eqn:En.
    + destruct (IH j x eq_refl) as (Hj & Hu & Hmax).
      destruct (decide (username r = u)) as [E|E].
      * destruct (analyzed_at r <? analyzed_at x) eqn:Hlt;
          injection H as <- <-.
        -- apply Z.ltb_lt in Hlt. repeat split; auto.
           constructor; [intros _; lia | exact Hmax].
        -- apply Z.ltb_ge in Hlt. repeat split; auto.
           constructor; [intros _; lia|].
           eapply Forall_impl; [exact Hmax|]. cbn. intros y Hy Hyu.
           specialize (Hy Hyu). lia.
      * injection H as <- <-. repeat split; auto.
        constructor; [intros; contradiction | exact Hmax].
    + destruct (decide (username r = u)) as [E|E]; [|discriminate].
      injection H as <- <-. repeat split; auto.
      constructor; [intros _; lia|].
      apply newest_none in En.
      eapply Forall_impl; [exact En|]. cbn. intros y Hy Hyu. contradiction.
Qed.

Lemma join_row (r : AnalysisHistory) (latest : string -> Z) (us : list string) :
  NoDup us ->
  flat_map
    (fun s : string * Z =>
       if decide (username r = fst s /\ analyzed_at r = snd s) then [r] else [])
    (map (fun u => (u, latest u)) us)
  = if decide (username r ∈ us /\ analyzed_at r = latest (username r))
    then [r] else [].
Proof.
  induction 1 as [|u us Hu Hnd IH]; cbn [map flat_map fst snd].
  - case_decide as H; [|reflexivity]. destruct H as [H _]. inversion H.
  - rewrite IH.
    destruct (decide (username r = u)) as [<-|Nu];
      destruct (decide (username r = _ /\ analyzed_at r = _)) as [E1|N1];
      destruct (decide (username r ∈ us /\ _)) as [E2|N2];
      destruct (decide (username r ∈ _ :: us /\ _)) as [E3|N3];
      try reflexivity; exfalso;
      rewrite elem_of_cons in *; tauto.
Qed.

Lemma join_rows (latest : string -> Z) (us : list string) (l : Table) :
  NoDup us ->
  (forall r, r ∈ l -> username r ∈ us) ->
  join_latest l (map (fun u => (u, latest u)) us)
  = filter (fun r => analyzed_at r = latest (username r)) l.
Proof.
  intros Hnd. unfold join_latest.
  induction l as [|r l IH]; intros Hin; [reflexivity|].
  cbn [flat_map]. rewrite (join_row r latest us Hnd).
  rewrite IH by (intros x Hx; apply Hin; now right).
  rewrite filter_cons.
  assert (Hr : username r ∈ us) by (apply Hin; now left).
  destruct (decide (username r ∈ us /\ analyzed_at r = latest (username r)))
    as [[_ E]|N];
    destruct (decide (analyzed_at r = latest (username r))) as [E'|N'];
    try reflexivity; exfalso.
  - contradiction.
  - apply N. now split.
Qed.

(** The join keeps the rows that carry the latest timestamp of their
    username. *)
Lemma join_latest_filter (rows : Table) :
  join_latest rows (latest_subquery rows)
  = filter (fun r => analyzed_at r = max_analyzed_at rows (username r)) rows.
Proof.
  unfold latest_subquery. apply join_rows.
  - apply NoDup_remove_dups.
  - intros r Hr. apply elem_of_remove_dups. apply list_elem_of_In.
    apply in_map. now apply list_elem_of_In.
Qed.

Lemma latest_rows_one_per_username (latest : string -> Z) (l : Table) :
  NoDup (map (fun r => (username r, analyzed_at r)) l) ->
  NoDup (map username
           (filter (fun r => analyzed_at r = latest (username r)) l)).
Proof.
  induction l as [|r l IH]; cbn [map]; intros Hnd; [constructor|].
  apply NoDup_cons in Hnd as [Hr Hnd].
  rewrite filter_cons. case_decide as Hlatest; [|now apply IH].
  cbn [map]. apply NoDup_cons. split; [|now apply IH].
  intros Hin. apply Hr.
  apply list_elem_of_In in Hin. apply in_map_iff in Hin.
  destruct Hin as (x & Hux & Hx).
  apply list_elem_of_In in Hx. apply list_elem_of_filter in Hx as [Hxl Hx].
  apply list_elem_of_In. apply in_map_iff. exists x. split.
  - rewrite Hux. f_equal. rewrite Hxl, Hlatest. now rewrite Hux.
  - now apply list_elem_of_In.
Qed.

Lemma NoDup_map_filter {A B : Type} (f : A -> B) (P : A -> Prop)
    `{forall x, Decision (P x)} (l : list A) :
  NoDup (map f l) -> NoDup (map f (filter P l)).
Proof.
  induction l as [|x l IH]; cbn [map]; intros Hnd; [constructor|].
  apply NoDup_cons in Hnd as [Hx Hnd].
  rewrite filter_cons. destruct (decide (P x)); [|now apply IH].
  cbn [map]. apply NoDup_cons. split; [|now apply IH].
  intros Hin. apply Hx.
  apply list_elem_of_In in Hin. apply in_map_iff in Hin.
  destruct Hin as (y & Hy & Hyl).
  apply list_elem_of_In in Hyl. apply list_elem_of_filter in Hyl as [_ Hyl].
  apply list_elem_of_In. apply in_map_iff. exists y.
  split; [exact Hy | now apply list_elem_of_In].
Qed.

(** When no two analyses of a username share their [analyzed_at],
    [get_top_opportunities] returns at most one row per username. *)
Lemma top_opportunities_distinct_without_ties (min_score : Q) (limit : nat)
    (rows : Table) :
  NoDup (map (fun r => (username r, analyzed_at r)) rows) ->
  NoDup (map username (get_top_opportunities min_score limit rows)).
Proof.
  intros Hnd. unfold get_top_opportunities.
  rewrite join_latest_filter.
  rewrite <- firstn_map. eapply sublist_NoDup; [|apply sublist_take].
  rewrite (Permutation_map username (PyFacts.sort_desc_perm _ _)).
  apply NoDup_map_filter.
  now apply latest_rows_one_per_username.
Qed.

End StoreFacts.

Module StoreProps.
Import Store StoreFacts.

(** C2, evaluated where the code departs from it.  Two analyses of one
    username that carry the same [analyzed_at] both equal the group
    maximum, both pass the join, and [get_top_opportunities] returns
    the two of them. *)
Theorem top_opportunities_tie_returns_both :
  get_top_opportunities 5 20 [mk 1 "cafe" 8 1000; mk 2 "cafe" 7 1000]
    = [mk 1 "cafe" 8 1000; mk 2 "cafe" 7 1000] /\
  map username
      (get_top_opportunities 5 20 [mk 1 "cafe" 8 1000; mk 2 "cafe" 7 1000])
    = ["cafe"; "cafe"].
Proof. split; vm_compute; reflexivity. Qed.

(** C9.  When no record of the username exists, [mark_contacted] returns
    [False] and the table is unchanged.  When one exists, it returns
    [True] and rewrites one row only: a row of that username whose
    [analyzed_at] is the greatest among the username's rows.  That row
    becomes contacted, its [contacted_date] is the instant of the call, its
    notes are the notes given (kept as they were when none, or the empty
    string, is given), and its other columns are unchanged; every other
    row, and the number of rows, stay as they were. *)
Theorem mark_contacted_latest_only :
  forall (u : string) (new_notes : option string) (now : Z) (rows : Table),
    (Forall (fun r => username r <> u) rows ->
     mark_contacted u new_notes now rows = (false, rows)) /\
    (Exists (fun r => username r = u) rows ->
     exists (i : nat) (a a' : AnalysisHistory),
       rows !! i = Some a /\
       username a = u /\
       Forall (fun r => username r = u -> analyzed_at r <= analyzed_at a) rows /\
       mark_contacted u new_notes now rows = (true, <[i := a']> rows) /\
       snd (mark_contacted u new_notes now rows) !! i = Some a' /\
       contacted a' = true /\
       contacted_date a' = Some now /\
       notes a' = match new_notes with
                  | Some s => if String.eqb s "" then notes a else Some s
                  | None => notes a
                  end /\
       (id a' = id a /\ username a' = username a /\
        followers a' = followers a /\ following a' = following a /\
        posts a' = posts a /\ engagement_rate a' = engagement_rate a /\
        posting_frequency a' = posting_frequency a /\
        opportunity_score a' = opportunity_score a /\
        issues a' = issues a /\ recommendations a' = recommendations a /\
        converted_to_client a' = converted_to_client a /\
        conversion_date a' = conversion_date a /\
        analyzed_at a' = analyzed_at a) /\
       (forall j : nat,
           j <> i -> snd (mark_contacted u new_notes now rows) !! j = rows !! j) /\
       length (snd (mark_contacted u new_notes now rows)) = length rows).
Proof.
  intros u new_notes now rows. split.
  - intros H. unfold mark_contacted.
    now rewrite (proj2 (newest_none u rows) H).
  - intros H. unfold mark_contacted.
    destruct (newest u rows) as [[i a]|] eqn:En.
    + destruct (newest_some u rows i a En) as (Hi & Hu & Hmax).
      exists i, a, (contact now new_notes a).
      split; [exact Hi|]. split; [exact Hu|]. split; [exact Hmax|].
      split; [reflexivity|]. cbn [snd].
      split; [apply list_lookup_insert_eq; eapply lookup_lt_Some; exact Hi|].
      split; [reflexivity|]. split; [reflexivity|].
      split.
      { cbn [contact notes]. unfold notes_truthy.
        destruct new_notes as [s|]; [|reflexivity].
        destruct (String.eqb s ""); reflexivity. }
      split; [repeat split|].
      split; [|apply length_insert].
      intros j Hj. now apply list_lookup_insert_ne.
    + apply newest_none in En. apply Exists_exists in H.
      destruct H as (r & Hin & Hr).
      rewrite Forall_forall in En. now apply En in Hin.
Qed.

Lemma mark_contacted_latest_only_witness :
  mark_contacted "bakery" None 5000 [mk 1 "cafe" 8 1000; mk 2 "cafe" 7 2000]
    = (false, [mk 1 "cafe" 8 1000; mk 2 "cafe" 7 2000]) /\
  exists (i : nat) (a a' : AnalysisHistory),
    [mk 1 "cafe" 8 1000; mk 2 "cafe" 7 2000] !! i = Some a /\
    mark_contacted "cafe" (Some "called") 5000
                   [mk 1 "cafe" 8 1000; mk 2 "cafe" 7 2000]
      = (true, <[i := a']> [mk 1 "cafe" 8 1000; mk 2 "cafe" 7 2000]) /\
    contacted a' = true /\
    contacted_date a' = Some 5000 /\
    notes a' = Some "called" /\
    analyzed_at a' = analyzed_at a.
Proof.
  split.
  - apply (proj1 (mark_contacted_latest_only "bakery" None 5000
                    [mk 1 "cafe" 8 1000; mk 2 "cafe" 7 2000])).
    repeat constructor; discriminate.
  - destruct (proj2 (mark_contacted_latest_only "cafe" (Some "called") 5000
                       [mk 1 "cafe" 8 1000; mk 2 "cafe" 7 2000]))
      as (i & a & a' & Hi & _ & _ & Hm & _ & Hc & Hd & Hn & Hrest & _).
    + left. reflexivity.
    + exists i, a, a'. split; [exact Hi|]. split; [exact Hm|].
      split; [exact Hc|]. split; [exact Hd|]. split; [exact Hn|].
      apply Hrest.
Defined.

End StoreProps.

(** ** The API server: cache and batch *)

Module ApiFacts.
Import Api.

Section WithAnalyzer.
Variable analyze_username : Z -> string -> Gathered.

(** What a task returns: the fresh cached dict, else what the analyzer
    gives; the state of the server has no part in it beyond the cache
    check. *)
Lemma run_analysis_value (now : Z) (username : string) (s : Server) :
  fst (run_analysis analyze_username now username s)
    = analyze_username now username.
Proof.
  unfold run_analysis.
  destruct (analyze_username now username) as [msg|[e sc|a]]; reflexivity.
Qed.

Lemma run_analysis_calls (now : Z) (username : string) (s : Server) :
  executor_calls (snd (run_analysis analyze_username now username s))
    = executor_calls s ++ [username].
Proof.
  unfold run_analysis.
  destruct (analyze_username now username) as [msg|[e sc|a]]; reflexivity.
Qed.

(** [gather] yields one outcome per username, in request order, each
    decided by that username alone. *)
Lemma gather_values (now : Z) (cache0 : gmap string Analyzer.Analysis)
    (names : list string) (s : Server) :
  fst (gather analyze_username now cache0 names s)
    = map (fun u =>
             match cache_hit now u false cache0 with
             | Some cached => Val (Analyzer.Report cached)
             | None => analyze_username now u
             end)
          names.
Proof.
  revert s. induction names as [|u rest IH]; intros s; [reflexivity|].
  cbn [gather map].
  destruct (cache_hit now u false cache0) as [c|] eqn:Hc.
  - specialize (IH s).
    destruct (gather analyze_username now cache0 rest s) as [l s2].
    cbn in *. now rewrite IH.
  - pose proof (run_analysis_value now u s) as Hv.
    destruct (run_analysis analyze_username now u s) as [g s1].
    specialize (IH s1).
    destruct (gather analyze_username now cache0 rest s1) as [l s2].
    cbn in *. now rewrite IH, Hv.
Qed.

End WithAnalyzer.

(** The results of a batch come in descending order of score. *)
Lemma batch_results_sorted (analyze_username : Z -> string -> Gathered)
    (now : Z) (request : BatchAnalyzeRequest) (s : Server) :
  Sorted (fun a b => (Analyzer.opportunity_score b <= Analyzer.opportunity_score a)%Q)
         (results (fst (batch_analyze_profiles analyze_username now request s))).
Proof.
  unfold batch_analyze_profiles.
  destruct (gather _ _ _ _ _) as [analyses s'].
  destruct (collect _ _ _ _) as [rs es].
  cbn [fst results]. apply PyFacts.sort_desc_sorted.
Qed.

(** [sort_desc] on two elements. *)
Lemma sort_desc_pair {A : Type} (key : A -> Q) (a b : A) :
  Py.sort_desc key [a; b]
    = if Py.leb (key b) (key a) then [a; b] else [b; a].
Proof. reflexivity. Qed.

End ApiFacts.

Module ApiProps.
Import Api ApiFacts.

(** C5 (as amended).  With an entry for the identifier in the cache and
    no [force_refresh]: while the entry is younger than 24 hours the get
    returns the cached payload and leaves the server as it was, the
    executor not called; from an age of 24 hours on it is a miss, the
    analysis is run (once, for that identifier) and its outcome returned,
    and a result without an error replaces the entry (and is stored),
    whereas an error result or an exception leaves the stale entry where
    it is. *)
Theorem cache_freshness :
  forall (analyze_username : Z -> string -> Gathered) (now : Z) (u : string)
         (a : Analyzer.Analysis) (s : Server),
    let cached :=
      {| analysis_cache := <[u := a]> (analysis_cache s);
         stored := stored s;
         executor_calls := executor_calls s |} in
    let out := analyze_profile_async analyze_username now u false cached in
    (now - Analyzer.analyzed_at a < FRESH ->
     out = (Val (Analyzer.Report a), cached)) /\
    (FRESH <= now - Analyzer.analyzed_at a ->
     fst out = analyze_username now u /\
     executor_calls (snd out) = executor_calls s ++ [u] /\
     (forall a' : Analyzer.Analysis,
         analyze_username now u = Val (Analyzer.Report a') ->
         analysis_cache (snd out) !! u = Some a' /\
         stored (snd out) = stored s ++ [a']) /\
     ((forall a' : Analyzer.Analysis,
          analyze_username now u <> Val (Analyzer.Report a')) ->
      analysis_cache (snd out) = <[u := a]> (analysis_cache s) /\
      stored (snd out) = stored s)).
Proof.
  intros analyze_username now u a s cached out. subst out.
  unfold analyze_profile_async, cache_hit. cbn [negb analysis_cache cached].
  unfold cached at 1 3. cbn [analysis_cache].
  rewrite lookup_insert_eq. split.
  - intros H. apply Z.ltb_lt in H. now rewrite H.
  - intros H. apply Z.ltb_ge in H. rewrite H.
    split; [apply run_analysis_value|].
    split; [exact (run_analysis_calls analyze_username now u cached)|].
    unfold run_analysis. split.
    + intros a' Ha'. rewrite Ha'. cbn. split; [|reflexivity].
      apply lookup_insert_eq.
    + intros Hno.
      destruct (analyze_username now u) as [msg|[e sc|a']]; cbn; auto.
      exfalso. now apply (Hno a').
Qed.

Lemma cache_freshness_witness :
  analyze_profile_async flaky 3600000000 "big" false
    {| analysis_cache := <["big" := sample "big" 9 0]> ∅;
       stored := []; executor_calls := [] |}
  = (Val (Analyzer.Report (sample "big" 9 0)),
     {| analysis_cache := <["big" := sample "big" 9 0]> ∅;
        stored := []; executor_calls := [] |}) /\
  executor_calls
    (snd (analyze_profile_async flaky FRESH "big" false
            {| analysis_cache := <["big" := sample "big" 9 0]> ∅;
               stored := []; executor_calls := [] |}))
  = ["big"].
Proof.
  split.
  - apply (proj1 (cache_freshness flaky 3600000000 "big" (sample "big" 9 0)
                    empty_server)).
    vm_compute. reflexivity.
  - apply (proj2 (cache_freshness flaky FRESH "big" (sample "big" 9 0)
                    empty_server)).
    vm_compute. discriminate.
Defined.

(** C5 as written fails: a stale entry whose recomputation returns an
    error result is not overwritten. *)
Lemma stale_entry_survives_failed_refresh :
  let stale :=
    {| analysis_cache := <["shop" := sample "shop" 9 0]> ∅;
       stored := []; executor_calls := [] |} in
  let out := analyze_profile_async offline FRESH "shop" false stale in
  fst out = Val (Analyzer.ErrorResult "Could not fetch profile @shop" None) /\
  executor_calls (snd out) = ["shop"] /\
  analysis_cache (snd out) !! "shop" = Some (sample "shop" 9 0).
Proof. repeat split. Qed.

(** C6 (as amended).  In a batch of three identifiers of which exactly
    one fails (its task raises, or returns an error result) and the other
    two succeed with scores that reach the request's
    [min_opportunity_score], the response has [successful = 2] and
    [failed = 1], lists the failed identifier with its error, and returns
    the two reports in descending order of score; the outcome of each
    identifier is decided by that identifier alone. *)
Theorem batch_one_failure :
  forall (analyze_username : Z -> string -> Gathered) (now : Z)
         (request : BatchAnalyzeRequest) (s : Server)
         (u1 u2 u3 uf msg : string) (i : nat) (a b : Analyzer.Analysis),
    let outcome := fun u : string =>
      match cache_hit now u false (analysis_cache s) with
      | Some cached => Val (Analyzer.Report cached)
      | None => analyze_username now u
      end in
    let response := fst (batch_analyze_profiles analyze_username now request s) in
    usernames request = [u1; u2; u3] ->
    [u1; u2; u3] !! i = Some uf ->
    (outcome uf = Exc msg \/
     exists sc, outcome uf = Val (Analyzer.ErrorResult msg sc)) ->
    map outcome (delete i [u1; u2; u3])
      = [Val (Analyzer.Report a); Val (Analyzer.Report b)] ->
    Py.leb (min_opportunity_score request) (Analyzer.opportunity_score a) = true ->
    Py.leb (min_opportunity_score request) (Analyzer.opportunity_score b) = true ->
    fst (gather analyze_username now (analysis_cache s) [u1; u2; u3] s)
      = [outcome u1; outcome u2; outcome u3] /\
    success response = true /\
    total_analyzed response = 3%nat /\
    successful response = 2%nat /\
    failed response = 1%nat /\
    errors response = Some [(uf, msg)] /\
    exists x y : Analyzer.Analysis,
      results response = [x; y] /\
      (Analyzer.opportunity_score y <= Analyzer.opportunity_score x)%Q /\
      ([x; y] = [a; b] \/ [x; y] = [b; a]).
Proof.
  intros analyze_username now request s u1 u2 u3 uf msg i a b outcome response
         Hn Hi Hf Hok Ha Hb.
  pose proof (gather_values analyze_username now (analysis_cache s)
                [u1; u2; u3] s) as Hg.
  fold outcome in Hg. cbn [map] in Hg.
  split; [exact Hg|].
  subst response. unfold batch_analyze_profiles. rewrite Hn.
  destruct (gather analyze_username now (analysis_cache s) [u1; u2; u3] s)
    as [analyses s'].
  cbn [fst] in Hg. subst analyses.
  assert (Hsorted :
    exists x y : Analyzer.Analysis,
      Py.sort_desc Analyzer.opportunity_score [a; b] = [x; y] /\
      (Analyzer.opportunity_score y <= Analyzer.opportunity_score x)%Q /\
      ([x; y] = [a; b] \/ [x; y] = [b; a])).
  { rewrite sort_desc_pair.
    destruct (Py.leb (Analyzer.opportunity_score b) (Analyzer.opportunity_score a))
      eqn:E.
    - exists a, b. split; [reflexivity|]. split; [|now left].
      now apply PyFacts.leb_le.
    - exists b, a. split; [reflexivity|]. split; [|now right].
      apply Qlt_le_weak. now apply PyFacts.leb_gt. }
  destruct i as [|[|[|i]]]; cbn in Hi; try discriminate;
    injection Hi as <-; cbn [delete list_delete map] in Hok;
    injection Hok as Hoa Hob;
    rewrite Hoa, Hob;
    (destruct Hf as [Hf | [sc Hf]]; rewrite Hf);
    cbn [collect zip zip_with fst snd app]; rewrite Ha, Hb;
    cbn [collect app length success total_analyzed successful failed results
         errors fst Py.truthy];
    destruct Hsorted as (x & y & Hs & Hle & Hperm); rewrite Hs;
    repeat (split; [reflexivity|]);
    exists x, y; auto.
Qed.

Lemma batch_one_failure_witness :
  successful
    (fst (batch_analyze_profiles flaky 0
            {| usernames := ["small"; "down"; "big"];
               min_opportunity_score := 0 |} empty_server)) = 2%nat /\
  failed
    (fst (batch_analyze_profiles flaky 0
            {| usernames := ["small"; "down"; "big"];
               min_opportunity_score := 0 |} empty_server)) = 1%nat /\
  errors
    (fst (batch_analyze_profiles flaky 0
            {| usernames := ["small"; "down"; "big"];
               min_opportunity_score := 0 |} empty_server))
    = Some [("down", "ConnectionError")].
Proof.
  destruct (batch_one_failure flaky 0
              {| usernames := ["small"; "down"; "big"];
                 min_opportunity_score := 0 |} empty_server
              "small" "down" "big" "down" "ConnectionError" 1
              (sample "small" 6 0) (sample "big" 9 0))
    as (_ & _ & _ & Hs & Hf & He & _).
  - reflexivity.
  - reflexivity.
  - left. reflexivity.
  - reflexivity.
  - reflexivity.
  - reflexivity.
  - split; [exact Hs|]. split; [exact Hf | exact He].
Defined.

(** C6 as written fails: with a threshold of 7 one of the two analyses
    that succeeded (score 6) is filtered out before it is counted, and the
    response says [successful = 1]. *)
Lemma batch_counts_after_filter :
  let request :=
    {| usernames := ["small"; "down"; "big"]; min_opportunity_score := 7 |} in
  let response := fst (batch_analyze_profiles flaky 0 request empty_server) in
  map (flaky 0) (usernames request)
    = [ Val (Analyzer.Report (sample "small" 6 0));
        Exc "ConnectionError";
        Val (Analyzer.Report (sample "big" 9 0)) ] /\
  successful response = 1%nat /\
  failed response = 1%nat /\
  results response = [sample "big" 9 0].
Proof. repeat split. Qed.

End ApiProps.

(** ** The scheduler *)

Module SchedulerFacts.
Import Scheduler.

Section WithEnvironment.
Variable clock : nat -> Z.
Variable search_businesses : CrawlJob -> option (list Business).
Variable analyze_and_store : string -> nat -> option Analyzer.Analysis * nat.

(** [_calculate_next_run] reads the clock once and adds the period of
    the frequency to that reading. *)
Lemma calculate_next_run_value (frequency : string) (w : World) :
  _calculate_next_run clock frequency w
    = (clock (clock_reads w)
       + (if String.eqb frequency "daily" then 1 * Py.DAY
          else if String.eqb frequency "weekly" then 7 * Py.DAY
          else if String.eqb frequency "monthly" then 30 * Py.DAY
          else 7 * Py.DAY),
       {| clock_reads := S (clock_reads w); crawl_jobs := crawl_jobs w |}).
Proof.
  unfold _calculate_next_run, datetime_now.
  destruct (String.eqb frequency "daily"); [reflexivity|].
  destruct (String.eqb frequency "weekly"); [reflexivity|].
  destruct (String.eqb frequency "monthly"); reflexivity.
Qed.

Lemma update_job_sets (job_id last next found : Z) (jobs : list CrawlJob) :
  Forall (fun j => id j = job_id ->
                   last_run j = Some last /\ next_run j = Some next /\
                   profiles_found j = found)
         (update_job job_id last next found jobs).
Proof.
  unfold update_job. apply Forall_map. apply Forall_forall. intros j _.
  destruct (id j =? job_id) eqn:E; cbn.
  - auto.
  - intros H. apply Z.eqb_neq in E. contradiction.
Qed.

Lemma update_job_ids (job_id last next found : Z) (jobs : list CrawlJob) :
  map id (update_job job_id last next found jobs) = map id jobs.
Proof.
  unfold update_job. rewrite map_map. apply map_ext. intros j.
  destruct (id j =? job_id); reflexivity.
Qed.

End WithEnvironment.

End SchedulerFacts.

Module SchedulerProps.
Import Scheduler SchedulerFacts.

(** C3 (as amended).  A run whose business search succeeds completes, and
    then every row of the job holds [last_run = t1] and
    [next_run = t2 + period], where [t1] and [t2] are two successive
    readings of the clock ([t2] is the one [_calculate_next_run] takes for
    itself) and the period is 1 day for 'daily', 7 days for 'weekly', 30
    days for 'monthly' and 7 days for any other frequency, whatever the
    number of profiles analyzed (which goes to [profiles_found]).  So
    [next_run - last_run] is the period plus [t2 - t1]: exactly 7 days for
    a weekly job when the two readings coincide. *)
Theorem next_run_after_completed_run :
  forall (clock : nat -> Z)
         (search_businesses : CrawlJob -> option (list Business))
         (analyze_and_store : string -> nat -> option Analyzer.Analysis * nat)
         (job : CrawlJob) (w : World) (businesses : list Business),
    let period :=
      if String.eqb (frequency job) "daily" then 1 * Py.DAY
      else if String.eqb (frequency job) "weekly" then 7 * Py.DAY
      else if String.eqb (frequency job) "monthly" then 30 * Py.DAY
      else 7 * Py.DAY in
    let run := run_crawl_job clock search_businesses analyze_and_store job w in
    search_businesses job = Some businesses ->
    exists (n k : Z) (t : nat),
      analyze_businesses analyze_and_store job businesses 0 0 (clock_reads w)
        = (n, k, t) /\
      fst run = Completed n k /\
      clock_reads (snd run) = S (S t) /\
      crawl_jobs (snd run)
        = update_job (id job) (clock t) (clock (S t) + period) n (crawl_jobs w) /\
      map id (crawl_jobs (snd run)) = map id (crawl_jobs w) /\
      Forall (fun j => id j = id job ->
                       last_run j = Some (clock t) /\
                       next_run j = Some (clock (S t) + period) /\
                       profiles_found j = n /\
                       (clock (S t) = clock t ->
                        next_run j = Some (clock t + period)))
             (crawl_jobs (snd run)) /\
      (forall w0 : World,
          fst (_calculate_next_run clock (frequency job) w0)
            = clock (clock_reads w0) + period).
Proof.
  intros clock search_businesses analyze_and_store job w businesses period run Hs.
  subst run. unfold run_crawl_job. rewrite Hs.
  destruct (analyze_businesses analyze_and_store job businesses 0 0 (clock_reads w))
    as [[n k] t] eqn:Ea.
  exists n, k, t. split; [reflexivity|].
  cbn [datetime_now clock_reads crawl_jobs].
  rewrite calculate_next_run_value. fold period.
  cbn [fst snd clock_reads crawl_jobs].
  repeat split.
  - apply update_job_ids.
  - eapply Forall_impl; [apply update_job_sets|].
    cbn. intros j Hj Hid. destruct (Hj Hid) as (Hl & Hn & Hp).
    repeat split; auto. intros Heq. now rewrite <- Heq.
  - intros w0. now rewrite calculate_next_run_value.
Qed.

Lemma next_run_after_completed_run_witness :
  crawl_jobs
    (snd (run_crawl_job (fun _ => 1000) no_business no_analysis weekly_job
            {| clock_reads := 0; crawl_jobs := [weekly_job] |}))
  = update_job 1 1000 (1000 + 7 * Py.DAY) 0 [weekly_job].
Proof.
  destruct (next_run_after_completed_run (fun _ => 1000) no_business no_analysis
              weekly_job {| clock_reads := 0; crawl_jobs := [weekly_job] |} [])
    as (n & k & t & Ha & _ & _ & Hj & _).
  - reflexivity.
  - cbn in Ha. injection Ha as <- <- <-. rewrite Hj. vm_compute. reflexivity.
Defined.

(** C3 as written fails: [last_run] and [next_run] come from two
    readings of the clock, and when the clock moves between them (here by
    one microsecond) [next_run] is not [last_run] plus 7 days. *)
Lemma next_run_is_not_last_run_plus_week :
  let w' :=
    snd (run_crawl_job ticking no_business no_analysis weekly_job
           {| clock_reads := 0; crawl_jobs := [weekly_job] |}) in
  exists (j : CrawlJob) (t : Z),
    crawl_jobs w' = [j] /\
    last_run j = Some t /\
    next_run j = Some (t + Py.timedelta_weeks 1 + 1) /\
    next_run j <> Some (t + Py.timedelta_weeks 1).
Proof.
  vm_compute. eexists _, 0.
  split; [reflexivity|]. split; [reflexivity|]. split; [reflexivity|].
  discriminate.
Qed.

End SchedulerProps.

(** ** The analyzer: rules, caps and edge cases *)

Module AnalyzerRules.
Import Analyzer AnalyzerFacts.

(** What [compute_metrics] takes for the posting interval: 30 below two
    posts, the mean of the day gaps otherwise. *)
Lemma compute_metrics_interval (pd : ProfileData) (posts : list Post)
    (now : Z) (m : Metrics) :
  compute_metrics pd posts now = inr m ->
  avg_posting_interval m =
    match posts with
    | _ :: _ :: _ =>
        (inject_Z (Py.sum (date_diffs (map date posts)))
         / inject_Z (Z.of_nat (length (date_diffs (map date posts)))))%Q
    | _ => 30%Q
    end.
Proof.
  unfold compute_metrics.
  destruct posts as [|p [|q qs]].
  - cbn. destruct (0 <? followers pd) eqn:Hf.
    + rewrite PyFacts.truediv_nonzero
        by (apply PyFacts.inject_Z_nonzero; apply Z.ltb_lt in Hf; lia).
      cbn. intros H. injection H as <-. reflexivity.
    + cbn. intros H. injection H as <-. reflexivity.
  - change (Py.truthy [p]) with true. cbv iota.
    rewrite !(PyFacts.truediv_nonzero _ _ (length_posts_nonzero p [])).
    cbn [Py.bind].
    destruct (0 <? followers pd) eqn:Hf.
    + rewrite PyFacts.truediv_nonzero
        by (apply PyFacts.inject_Z_nonzero; apply Z.ltb_lt in Hf; lia).
      cbn. intros H. injection H as <-. reflexivity.
    + cbn. intros H. injection H as <-. reflexivity.
  - change (Py.truthy (p :: q :: qs)) with true. cbv iota.
    rewrite !(PyFacts.truediv_nonzero _ _ (length_posts_nonzero p (q :: qs))).
    cbn [Py.bind].
    destruct (0 <? followers pd) eqn:Hf.
    + rewrite PyFacts.truediv_nonzero
        by (apply PyFacts.inject_Z_nonzero; apply Z.ltb_lt in Hf; lia).
      cbn. intros H. injection H as <-. reflexivity.
    + cbn. intros H. injection H as <-. reflexivity.
Qed.

(** X1.  The report lists the issues found in rule order, all of them
    unless the six rules fire together, when the sixth ("limited content
    library") is cut; so it never lists more than five. *)
Theorem issues_are_the_first_five :
  forall (pd : ProfileData) (m : Metrics) (stamp : Z),
    let fired :=
      (Nat.b2n (Py.ltb (engagement_rate m) 2)
       + Nat.b2n (Py.ltb 5 (avg_posting_interval m))
       + Nat.b2n (Z.ltb 7 (last_post_days m))
       + Nat.b2n (Py.ltb (inject_Z (followers pd) * (3 # 2))
                         (inject_Z (following pd)))
       + Nat.b2n (Py.ltb (avg_comments m) (avg_likes m * (2 # 100)))
       + Nat.b2n (Z.ltb (total_posts pd) 50))%nat in
    length (issues (build_report pd m stamp)) = Nat.min 5 fired /\
    length (all_issues pd m) = fired /\
    issues (build_report pd m stamp)
      = (if Nat.eqb fired 6
         then [ ISSUE_LOW_ENGAGEMENT; ISSUE_INCONSISTENT_POSTING;
                ISSUE_INACTIVE (last_post_days m); ISSUE_OVER_FOLLOWING;
                ISSUE_WEAK_COMMENTS ]
         else all_issues pd m).
Proof.
  intros pd m stamp fired. subst fired.
  unfold build_report; cbn [issues]. unfold all_issues, append_if.
  destruct (Py.ltb (engagement_rate m) 2),
           (Py.ltb 5 (avg_posting_interval m)),
           (7 <? last_post_days m),
           (Py.ltb (inject_Z (followers pd) * (3 # 2)) (inject_Z (following pd))),
           (Py.ltb (avg_comments m) (avg_likes m * (2 # 100))),
           (total_posts pd <? 50);
    repeat split; reflexivity.
Qed.

(** X2.  The report gives between three and six recommendations: the
    conditional ones that apply, in rule order, then the unconditional three,
    except that when all four conditional rules fire the last one ("invest in
    visual content") is cut. *)
Theorem recommendations_are_the_first_six :
  forall (pd : ProfileData) (m : Metrics) (stamp : Z),
    let fired :=
      (Nat.b2n (Py.ltb (engagement_rate m) 3)
       + Nat.b2n (Py.ltb 3 (avg_posting_interval m))
       + Nat.b2n (Py.ltb (avg_comments m) (avg_likes m * (5 # 100)))
       + Nat.b2n (Z.ltb 3 (last_post_days m)))%nat in
    length (recommendations (build_report pd m stamp)) = Nat.min 6 (fired + 3) /\
    (3 <= length (recommendations (build_report pd m stamp)) <= 6)%nat /\
    recommendations (build_report pd m stamp)
      = (if Nat.eqb fired 4
         then [ REC_HASHTAGS; REC_SCHEDULE; REC_CONVERSATION; REC_RESUME;
                REC_TOP_POSTS; REC_TIMES ]
         else all_recommendations m).
Proof.
  intros pd m stamp fired. subst fired.
  unfold build_report; cbn [recommendations]. unfold all_recommendations, append_if.
  destruct (Py.ltb (engagement_rate m) 3),
           (Py.ltb 3 (avg_posting_interval m)),
           (Py.ltb (avg_comments m) (avg_likes m * (5 # 100))),
           (3 <? last_post_days m);
    repeat split; cbn; try reflexivity; lia.
Qed.

(** X3.  The posting-frequency label is decided by the average interval
    alone, with the boundaries on the side of the more frequent label:
    "daily" up to 1.5 days, "2-3 times/week" above 1.5 and up to 4, "weekly"
    above 4 and up to 9, "irregular" above 9. *)
Theorem posting_frequency_boundaries :
  forall x : Q,
    (posting_frequency_of x = "daily" <-> (x <= 3 # 2)%Q) /\
    (posting_frequency_of x = "2-3 times/week" <-> (3 # 2 < x /\ x <= 4)%Q) /\
    (posting_frequency_of x = "weekly" <-> (4 < x /\ x <= 9)%Q) /\
    (posting_frequency_of x = "irregular" <-> (9 < x)%Q).
Proof.
  intros x. unfold posting_frequency_of.
  destruct (Py.leb x (3 # 2)) eqn:E1;
    [apply PyFacts.leb_le in E1 | apply PyFacts.leb_gt in E1];
    (destruct (Py.leb x 4) eqn:E2;
       [apply PyFacts.leb_le in E2 | apply PyFacts.leb_gt in E2]);
    (destruct (Py.leb x 9) eqn:E3;
       [apply PyFacts.leb_le in E3 | apply PyFacts.leb_gt in E3]);
    repeat split; intros;
    first [ reflexivity | discriminate | lra ].
Qed.

(** X4.  The growth tier bounds the score from the other side: a profile
    rated "low" growth scores at least 8.0, one rated "high" at most 6.5. *)
Theorem growth_tier_bounds_score :
  forall (pd : ProfileData) (m : Metrics) (stamp : Z),
    (growth_potential (build_report pd m stamp) = "low" ->
     (8 <= opportunity_score (build_report pd m stamp))%Q) /\
    (growth_potential (build_report pd m stamp) = "high" ->
     (opportunity_score (build_report pd m stamp) <= 13 # 2)%Q).
Proof.
  intros pd m stamp.
  unfold build_report; cbn [growth_potential opportunity_score].
  unfold growth_potential_of.
  destruct (Py.ltb (engagement_rate m) (3 # 2)) eqn:E1;
    destruct (Py.ltb 7 (avg_posting_interval m)) eqn:E2;
    destruct (Py.ltb (engagement_rate m) 3) eqn:E3;
    destruct (Py.ltb 4 (avg_posting_interval m)) eqn:E4;
    cbn [andb orb]; split; intros H; try discriminate.
  all: unfold clamp_score, raw_score, add_if.
  all: try apply PyFacts.ltb_lt in E1; try apply PyFacts.ltb_ge in E1.
  all: try apply PyFacts.ltb_lt in E2; try apply PyFacts.ltb_ge in E2.
  all: try apply PyFacts.ltb_lt in E3; try apply PyFacts.ltb_ge in E3.
  all: try apply PyFacts.ltb_lt in E4; try apply PyFacts.ltb_ge in E4.
  all: try (exfalso; lra).
  - (* "low": both the engagement and the interval bonus apply *)
    assert (B1 : Py.ltb (engagement_rate m) 2 = true)
      by (apply PyFacts.ltb_lt; lra).
    assert (B2 : Py.ltb 5 (avg_posting_interval m) = true)
      by (apply PyFacts.ltb_lt; lra).
    rewrite B1, B2. branches; literal.
  - (* "high": neither of them, nor the one for established accounts *)
    assert (B1 : Py.ltb (engagement_rate m) 2 = false)
      by (apply PyFacts.ltb_ge; lra).
    assert (B2 : Py.ltb 5 (avg_posting_interval m) = false)
      by (apply PyFacts.ltb_ge; lra).
    assert (B3 : Py.ltb (engagement_rate m) (5 # 2) = false)
      by (apply PyFacts.ltb_ge; lra).
    rewrite B1, B2, B3, andb_false_r. branches; literal.
Qed.

(** X5.  Rounding and clamping change the sum of base and bonuses in one
    case only: when all five bonuses apply the sum 10.5 is cut to 10; in every
    other case the score is that sum. *)
Theorem clamp_binds_only_with_all_bonuses :
  forall (pd : ProfileData) (m : Metrics) (stamp : Z),
    (opportunity_score (build_report pd m stamp)
     == if Py.ltb (engagement_rate m) 2
           && Py.ltb 5 (avg_posting_interval m)
           && (7 <? last_post_days m)
           && ((1000 <? followers pd) && Py.ltb (engagement_rate m) (5 # 2))
           && is_business pd
        then 10
        else raw_score pd m)%Q.
Proof.
  intros pd m stamp.
  unfold build_report; cbn [opportunity_score].
  unfold clamp_score, raw_score, add_if.
  destruct (Py.ltb (engagement_rate m) 2),
           (Py.ltb 5 (avg_posting_interval m)),
           (7 <? last_post_days m),
           (1000 <? followers pd),
           (Py.ltb (engagement_rate m) (5 # 2)),
           (is_business pd);
    literal.
Qed.

Lemma growth_tier_bounds_score_witness :
  (8 <= opportunity_score
          (build_report scenario_profile
             {| avg_likes := 5; avg_comments := 2 # 10;
                engagement_rate := 52 # 100; avg_posting_interval := 12;
                last_post_days := 10 |} 0))%Q.
Proof.
  apply (proj1 (growth_tier_bounds_score scenario_profile _ 0)).
  reflexivity.
Defined.

(** X6.  A profile with a single recent post has no gap to measure: the
    interval defaults to 30 days, so the report labels it "irregular", lists
    the inconsistent-posting issue and the schedule recommendation, and
    scores it at least 6.5. *)
Theorem single_post_profile :
  forall (pd : ProfileData) (p : Post) (now stamp : Z),
    recent_posts pd = Some [p] ->
    exists r,
      analyze_profile (Some pd) now stamp = inr (Report r) /\
      (avg_posting_interval_days r == 30)%Q /\
      posting_frequency r = "irregular" /\
      In ISSUE_INCONSISTENT_POSTING (issues r) /\
      In REC_SCHEDULE (recommendations r) /\
      growth_potential r <> "high" /\
      (13 # 2 <= opportunity_score r)%Q.
Proof.
  intros pd p now stamp Hp.
  destruct (compute_metrics_total pd [p] now) as [m Hm].
  pose proof (compute_metrics_interval pd [p] now m Hm) as Hi. cbn in Hi.
  exists (build_report pd m stamp).
  split; [apply (analyze_profile_nonempty pd [p]); [exact Hp | discriminate | exact Hm]|].
  unfold build_report;
    cbn [avg_posting_interval_days posting_frequency issues recommendations
         growth_potential opportunity_score].
  unfold all_issues, all_recommendations, growth_potential_of, clamp_score,
    raw_score.
  rewrite Hi.
  change (Py.ltb 5 30) with true. change (Py.ltb 3 30) with true.
  change (Py.ltb 4 30) with true. change (Py.ltb 7 30) with true.
  split; [literal|]. split; [reflexivity|].
  split; [|split; [|split]].
  - destruct (Py.ltb (engagement_rate m) 2), (7 <? last_post_days m),
      (Py.ltb (inject_Z (followers pd) * (3 # 2)) (inject_Z (following pd))),
      (Py.ltb (avg_comments m) (avg_likes m * (2 # 100))),
      (total_posts pd <? 50); cbn; tauto.
  - destruct (Py.ltb (engagement_rate m) 3),
      (Py.ltb (avg_comments m) (avg_likes m * (5 # 100))),
      (3 <? last_post_days m); cbn; tauto.
  - rewrite orb_true_r. destruct (_ && _); discriminate.
  - unfold add_if.
    destruct (Py.ltb (engagement_rate m) 2), (7 <? last_post_days m),
      (1000 <? followers pd), (Py.ltb (engagement_rate m) (5 # 2)),
      (is_business pd); literal.
Qed.

Lemma single_post_profile_witness :
  exists r,
    analyze_profile
      (Some {| username := "solo"; full_name := "Solo"; followers := 800;
               following := 100; total_posts := 1; is_business := false;
               recent_posts := Some [ {| likes := 90; comments := 9; date := 0 |} ] |})
      Py.DAY 0 = inr (Report r) /\
    posting_frequency r = "irregular".
Proof.
  destruct (single_post_profile
              {| username := "solo"; full_name := "Solo"; followers := 800;
                 following := 100; total_posts := 1; is_business := false;
                 recent_posts := Some [ {| likes := 90; comments := 9; date := 0 |} ] |}
              {| likes := 90; comments := 9; date := 0 |} Py.DAY 0)
    as (r & Hr & _ & Hf & _).
  - reflexivity.
  - exists r. split; [exact Hr | exact Hf].
Defined.

Lemma days_nonneg (delta : Z) : 0 <= delta -> 0 <= Py.days delta.
Proof. intros H. unfold Py.days, Py.DAY. apply Z.div_pos; lia. Qed.

Lemma date_diffs_nonneg (dates : list Z) :
  Sorted (fun a b => b <= a) dates ->
  Forall (fun d => 0 <= d) (date_diffs dates).
Proof.
  induction 1 as [|d0 rest Hs IH Hhd]; [constructor|].
  cbn [date_diffs]. destruct rest as [|d1 rest']; [constructor|].
  constructor; [|exact IH].
  apply days_nonneg. inversion Hhd; subst. lia.
Qed.

Lemma sorted_dates (posts : list Post) :
  Sorted (fun a b => date b <= date a) posts ->
  Sorted (fun a b => b <= a) (map date posts).
Proof.
  induction 1 as [|p rest Hs IH Hhd]; cbn [map]; constructor; [exact IH|].
  destruct Hhd; cbn [map]; constructor. assumption.
Qed.

(** X7.  When the posts come newest first, no day gap is negative and
    neither is the average posting interval; and when the newest post is
    not dated after the clock, [last_post_days] is not negative. *)
Theorem newest_first_gives_nonnegative_ages :
  forall (pd : ProfileData) (p : Post) (ps : list Post) (now : Z) (m : Metrics),
    compute_metrics pd (p :: ps) now = inr m ->
    Sorted (fun a b => date b <= date a) (p :: ps) ->
    date p <= now ->
    Forall (fun d => 0 <= d) (date_diffs (map date (p :: ps))) /\
    (0 <= avg_posting_interval m)%Q /\
    0 <= last_post_days m.
Proof.
  intros pd p ps now m Hm Hs Hnow.
  pose proof (date_diffs_nonneg _ (sorted_dates _ Hs)) as Hd.
  split; [exact Hd|]. split.
  - rewrite (compute_metrics_interval pd (p :: ps) now m Hm).
    destruct ps as [|q qs]; [literal|].
    apply AnalyzerProps.nonneg_quotient.
    + now apply PyFacts.sum_nonneg.
    + cbn [map date_diffs length]. lia.
  - destruct (compute_metrics_nonempty pd p ps now) as (m' & Hm' & _ & _ & _ & Hl).
    rewrite Hm in Hm'. injection Hm' as <-. rewrite Hl.
    apply days_nonneg. lia.
Qed.

Lemma newest_first_gives_nonnegative_ages_witness :
  Forall (fun d => 0 <= d) (date_diffs (map date scenario_posts)).
Proof.
  refine (proj1 (newest_first_gives_nonnegative_ages scenario_profile
                   {| likes := 5; comments := 1; date := 48 * Py.DAY |}
                   (tl scenario_posts) scenario_now _ _ _ _)).
  - vm_compute. reflexivity.
  - repeat constructor; vm_compute; discriminate.
  - vm_compute. discriminate.
Defined.

(** X8.  [analyze_username] returns without raising.  What it returns is an
    error result exactly when the fetch fails or the fetched profile has no
    post; otherwise it is the report of the fetched profile, under the
    username the platform gave (not the one asked for). *)
Theorem analyze_username_outcome :
  forall (fetch : string -> option ProfileData) (u : string) (now stamp : Z),
    exists r,
      analyze_username fetch u now stamp = inr r /\
      (has_error r = true <->
       fetch u = None \/
       exists pd, fetch u = Some pd /\
                  (recent_posts pd = None \/ recent_posts pd = Some [])) /\
      (fetch u = None ->
       r = ErrorResult ("Could not fetch profile @" +:+ u) None) /\
      (forall a, r = Report a ->
                 exists pd, fetch u = Some pd /\ res_username a = username pd).
Proof.
  intros fetch u now stamp. unfold analyze_username.
  destruct (fetch u) as [pd|] eqn:Hf.
  - unfold analyze_profile.
    destruct (recent_posts pd) as [[|p ps]|] eqn:Hp.
    + eexists. split; [reflexivity|]. repeat split.
      * intros _. right. exists pd. auto.
      * discriminate.
      * discriminate.
    + destruct (compute_metrics_total pd (p :: ps) now) as [m Hm]. rewrite Hm.
      eexists. split; [reflexivity|]. repeat split.
      * discriminate.
      * intros [H | (pd' & H & [H' | H'])]; [discriminate| |];
          injection H as <-; congruence.
      * discriminate.
      * intros a Ha. injection Ha as <-. exists pd. split; reflexivity.
    + eexists. split; [reflexivity|]. repeat split.
      * intros _. right. exists pd. auto.
      * discriminate.
      * discriminate.
  - eexists. split; [reflexivity|]. repeat split.
    + intros _. now left.
    + discriminate.
Qed.

End AnalyzerRules.

(** ** The store: queries and their composition *)

Module StoreQueries.
Import Store StoreFacts.

Lemma sorted_take {A : Type} (R : A -> A -> Prop) (n : nat) (l : list A) :
  Sorted R l -> Sorted R (take n l).
Proof.
  intros H. revert n. induction H as [|x l Hl IH Hhd]; intros [|n]; cbn;
    try constructor.
  - apply IH.
  - destruct Hhd; destruct n; cbn; constructor. assumption.
Qed.

Lemma sorted_weaken {A : Type} (R R' : A -> A -> Prop) (l : list A) :
  (forall x y, R x y -> R' x y) -> Sorted R l -> Sorted R' l.
Proof.
  intros HR. induction 1 as [|x l Hl IH Hhd]; constructor; [exact IH|].
  destruct Hhd; constructor. now apply HR.
Qed.

(** The group maximum is reached from below by every row of the group. *)
Lemma max_analyzed_at_ge (rows : Table) (r : AnalysisHistory) :
  r ∈ rows -> analyzed_at r <= max_analyzed_at rows (username r).
Proof.
  unfold max_analyzed_at. intros Hr.
  assert (Hin : analyzed_at r ∈
                  map analyzed_at (filter (fun x => username x = username r) rows)).
  { apply list_elem_of_In. apply in_map. apply list_elem_of_In.
    apply list_elem_of_filter. split; [reflexivity | exact Hr]. }
  generalize dependent (map analyzed_at
                          (filter (fun x => username x = username r) rows)).
  intros group Hin. generalize (hd 0 group). intros d.
  induction Hin as [? l|? y l Hin IH]; cbn [fold_right]; lia.
Qed.

(** What [get_top_opportunities] returns is made of rows of the table that
    reach the threshold and carry the latest timestamp of their username. *)
Lemma top_opportunities_elements (min_score : Q) (limit : nat) (rows : Table)
    (r : AnalysisHistory) :
  r ∈ get_top_opportunities min_score limit rows ->
  r ∈ rows /\
  (min_score <= opportunity_score r)%Q /\
  analyzed_at r = max_analyzed_at rows (username r).
Proof.
  unfold get_top_opportunities. rewrite join_latest_filter. intros Hr.
  apply elem_of_take in Hr as (i & Hr & _).
  apply list_elem_of_lookup_2 in Hr.
  rewrite (PyFacts.sort_desc_perm opportunity_score _) in Hr.
  apply list_elem_of_filter in Hr as [Hs Hr].
  apply list_elem_of_filter in Hr as [Hl Hr].
  repeat split; auto. now apply PyFacts.leb_le.
Qed.

(** X9.  [get_top_opportunities] returns at most [limit] rows, in
    descending order of score; each is a row of the table whose score
    reaches [min_score] and which no analysis of the same username
    postdates. *)
Theorem top_opportunities_sound :
  forall (min_score : Q) (limit : nat) (rows : Table),
    (length (get_top_opportunities min_score limit rows) <= limit)%nat /\
    Sorted (fun a b => (opportunity_score b <= opportunity_score a)%Q)
           (get_top_opportunities min_score limit rows) /\
    Forall (fun r =>
              r ∈ rows /\
              (min_score <= opportunity_score r)%Q /\
              Forall (fun x => username x = username r ->
                               analyzed_at x <= analyzed_at r) rows)
           (get_top_opportunities min_score limit rows).
Proof.
  intros min_score limit rows. split; [apply firstn_le_length|]. split.
  - unfold get_top_opportunities. apply sorted_take.
    apply PyFacts.sort_desc_sorted.
  - apply Forall_forall. intros r Hr.
    apply top_opportunities_elements in Hr as (Hin & Hs & Hmax).
    repeat split; auto.
    apply Forall_forall. intros x Hx Hu. rewrite Hmax, <- Hu.
    now apply max_analyzed_at_ge.
Qed.

(** X10.  Only the latest analysis of a username counts: when every
    analysis of [u] that none postdates scores below [min_score], no row of
    [u] is returned, whatever older analyses of [u] scored. *)
Theorem top_opportunities_latest_only :
  forall (min_score : Q) (limit : nat) (rows : Table) (u : string),
    Forall (fun r =>
              username r = u ->
              Forall (fun x => username x = u -> analyzed_at x <= analyzed_at r) rows ->
              (opportunity_score r < min_score)%Q)
           rows ->
    Forall (fun r => username r <> u)
           (get_top_opportunities min_score limit rows).
Proof.
  intros min_score limit rows u H.
  apply Forall_forall. intros r Hr Hu.
  apply top_opportunities_elements in Hr as (Hin & Hs & Hmax).
  rewrite Forall_forall in H. specialize (H r Hin Hu).
  apply (Qlt_not_le _ _ (H ltac:(
    apply Forall_forall; intros x Hx Hxu;
    rewrite Hmax, Hu, <- Hxu; now apply max_analyzed_at_ge)) Hs).
Qed.

Lemma top_opportunities_latest_only_witness :
  Forall (fun r => username r <> "cafe")
         (get_top_opportunities 7 20 [mk 1 "cafe" 9 1000; mk 2 "cafe" 6 2000]).
Proof.
  apply top_opportunities_latest_only.
  constructor; [|constructor; [|constructor]].
  - intros _ Hmax. exfalso.
    apply Forall_inv_tail in Hmax. apply Forall_inv in Hmax.
    specialize (Hmax eq_refl). cbn in Hmax. lia.
  - intros _ _. reflexivity.
Defined.

Lemma leb_inject_Z (a b : Z) : Py.leb (inject_Z a) (inject_Z b) = (a <=? b).
Proof.
  unfold Py.leb, Qle_bool. cbn. now rewrite !Z.mul_1_r.
Qed.

Lemma head_insert_desc {A : Type} (key : A -> Q) (x : A) (l : list A) :
  head (Py.insert_desc key x l)
  = Some (match l with
          | [] => x
          | y :: _ => if Py.leb (key y) (key x) then x else y
          end).
Proof.
  destruct l as [|y l]; cbn; [reflexivity|].
  destruct (Py.leb (key y) (key x)); reflexivity.
Qed.

(** The first row of a history is the row that [.first()] selects. *)
Lemma head_history (u : string) (rows : Table) :
  head (Py.sort_desc (fun r => inject_Z (analyzed_at r))
                     (filter (fun r => username r = u) rows))
  = match newest u rows with
    | Some (_, a) => Some a
    | None => None
    end.
Proof.
  induction rows as [|r rest IH]; [reflexivity|].
  rewrite filter_cons. cbn [newest].
  destruct (decide (username r = u)) as [E|E].
  - unfold Py.sort_desc. cbn [fold_right]. rewrite head_insert_desc.
    fold (Py.sort_desc (fun r => inject_Z (analyzed_at r))
            (filter (fun r => username r = u) rest)).
    destruct (Py.sort_desc _ (filter _ rest)) as [|y l];
      destruct (newest u rest) as [[i x]|]; cbn in IH; try discriminate.
    + reflexivity.
    + injection IH as ->. rewrite leb_inject_Z.
      destruct (analyzed_at r <? analyzed_at x) eqn:Hlt.
      * apply Z.ltb_lt in Hlt.
        destruct (analyzed_at x <=? analyzed_at r) eqn:Hle;
          [apply Z.leb_le in Hle; lia | reflexivity].
      * apply Z.ltb_ge in Hlt.
        destruct (analyzed_at x <=? analyzed_at r) eqn:Hle;
          [reflexivity | apply Z.leb_gt in Hle; lia].
  - rewrite IH. destruct (newest u rest) as [[i x]|]; reflexivity.
Qed.

(** Rewriting the selected row without touching its username or timestamp
    leaves it the selected row. *)
Lemma newest_insert (f : AnalysisHistory -> AnalysisHistory) (u : string)
    (rows : Table) (i : nat) (a : AnalysisHistory) :
  (forall x, username (f x) = username x) ->
  (forall x, analyzed_at (f x) = analyzed_at x) ->
  newest u rows = Some (i, a) ->
  newest u (<[i := f a]> rows) = Some (i, f a).
Proof.
  intros Hu Ht. revert i a.
  induction rows as [|r rest IH]; intros i a H; [discriminate|].
  cbn [newest] in H.
  destruct (newest u rest) as [[j x]|] eqn:En.
  - destruct (decide (username r = u)) as [E|E].
    + destruct (analyzed_at r <? analyzed_at x) eqn:Hlt; injection H as <- <-.
      * change (<[S j := f x]> (r :: rest)) with (r :: <[j := f x]> rest).
        cbn [newest]. rewrite (IH j x eq_refl).
        rewrite decide_True by exact E. now rewrite Ht, Hlt.
      * change (<[0%nat := f r]> (r :: rest)) with (f r :: rest).
        cbn [newest]. rewrite En.
        rewrite decide_True by (now rewrite Hu). now rewrite Ht, Hlt.
    + injection H as <- <-.
      change (<[S j := f x]> (r :: rest)) with (r :: <[j := f x]> rest).
      cbn [newest]. rewrite (IH j x eq_refl).
      now rewrite decide_False by exact E.
  - destruct (decide (username r = u)) as [E|E]; [|discriminate].
    injection H as <- <-.
    change (<[0%nat := f r]> (r :: rest)) with (f r :: rest).
    cbn [newest]. rewrite En.
    now rewrite decide_True by (now rewrite Hu).
Qed.

Lemma head_take {A : Type} (n : nat) (l : list A) :
  head (take (S n) l) = head l.
Proof. destruct l; reflexivity. Qed.

(** X11.  [get_profile_history] returns at most [limit] rows, all of them
    rows of the table for that username, newest first; all the rows of the
    username when there are no more than [limit]; none when the username has
    no analysis, and at least one otherwise (for a limit that is not 0). *)
Theorem profile_history_sound :
  forall (u : string) (limit : nat) (rows : Table),
    (length (get_profile_history u limit rows) <= limit)%nat /\
    Forall (fun r => r ∈ rows /\ username r = u)
           (get_profile_history u limit rows) /\
    Sorted (fun a b => analyzed_at b <= analyzed_at a)
           (get_profile_history u limit rows) /\
    ((length (filter (fun r => username r = u) rows) <= limit)%nat ->
     Permutation (get_profile_history u limit rows)
                 (filter (fun r => username r = u) rows)) /\
    (Forall (fun r => username r <> u) rows ->
     get_profile_history u limit rows = []) /\
    (Exists (fun r => username r = u) rows ->
     limit <> 0%nat ->
     get_profile_history u limit rows <> []).
Proof.
  intros u limit rows. unfold get_profile_history.
  split; [apply firstn_le_length|]. split; [|split; [|split; [|split]]].
  - apply Forall_take.
    rewrite (PyFacts.sort_desc_perm _ _).
    apply Forall_forall. intros r Hr.
    apply list_elem_of_filter in Hr. tauto.
  - apply sorted_take.
    eapply sorted_weaken; [|apply PyFacts.sort_desc_sorted].
    cbn. intros x y H. now rewrite Zle_Qle.
  - intros Hlen. rewrite take_ge.
    + apply PyFacts.sort_desc_perm.
    + now rewrite (PyFacts.sort_desc_perm _ _).
  - intros Hno.
    pose proof (head_history u rows) as Hh.
    rewrite (proj2 (newest_none u rows) Hno) in Hh.
    destruct (Py.sort_desc _ _); [now rewrite take_nil | discriminate].
  - intros Hex Hlimit Hnil.
    destruct limit as [|n]; [congruence|].
    pose proof (head_history u rows) as Hh.
    rewrite <- (head_take n), Hnil in Hh. cbn in Hh.
    destruct (newest u rows) as [[i a]|] eqn:En; [discriminate|].
    apply newest_none in En. apply Exists_exists in Hex.
    destruct Hex as (r & Hr & Hu).
    rewrite Forall_forall in En. now apply (En r Hr).
Qed.

Lemma lookup_key (rows : Table) (i : nat) (r : AnalysisHistory) :
  rows !! i = Some r ->
  map (fun x => (username x, analyzed_at x)) rows !! i
  = Some (username r, analyzed_at r).
Proof.
  revert i. induction rows as [|x l IH]; intros [|i] H; try discriminate.
  - injection H as ->. reflexivity.
  - cbn. now apply IH.
Qed.

(** When no two analyses of a username carry the same timestamp, the row
    that [.first()] selects is strictly newer than every other row of the
    username: the selection is the only one the query allows. *)
Lemma newest_strict (u : string) (rows : Table) (i : nat) (a : AnalysisHistory) :
  NoDup (map (fun r => (username r, analyzed_at r)) rows) ->
  newest u rows = Some (i, a) ->
  forall (j : nat) (r : AnalysisHistory),
    rows !! j = Some r -> username r = u -> j <> i ->
    analyzed_at r < analyzed_at a.
Proof.
  intros Hnd En j r Hj Hu Hne.
  destruct (newest_some u rows i a En) as (Hi & Hua & Hmax).
  assert (Hle : analyzed_at r <= analyzed_at a).
  { rewrite Forall_forall in Hmax. apply Hmax; [|exact Hu].
    apply list_elem_of_lookup. eauto. }
  destruct (decide (analyzed_at r = analyzed_at a)) as [E|E]; [|lia].
  exfalso. apply Hne.
  apply (NoDup_lookup _ _ _ (username r, analyzed_at r) Hnd).
  - now apply lookup_key.
  - rewrite Hu, <- Hua, E. now apply lookup_key.
Qed.

(** X12.  When no two analyses of a username carry the same timestamp, a
    successful [mark_contacted] marks the record that heads the profile's
    history: the one analysis of the username that is strictly newer than
    all its others.  That record, now contacted, still heads the
    history. *)
Theorem marked_record_heads_history :
  forall (u : string) (new_notes : option string) (now : Z) (rows : Table)
         (n : nat),
    NoDup (map (fun r => (username r, analyzed_at r)) rows) ->
    fst (mark_contacted u new_notes now rows) = true ->
    exists (i : nat) (a : AnalysisHistory),
      rows !! i = Some a /\
      (forall (j : nat) (r : AnalysisHistory),
          rows !! j = Some r -> username r = u -> j <> i ->
          analyzed_at r < analyzed_at a) /\
      head (get_profile_history u (S n) rows) = Some a /\
      snd (mark_contacted u new_notes now rows)
        = <[i := contact now new_notes a]> rows /\
      head (get_profile_history u (S n) (snd (mark_contacted u new_notes now rows)))
        = Some (contact now new_notes a) /\
      contacted (contact now new_notes a) = true.
Proof.
  intros u new_notes now rows n Hnd.
  unfold mark_contacted, get_profile_history.
  destruct (newest u rows) as [[i a]|] eqn:En; [|discriminate].
  intros _. exists i, a. cbn [snd].
  destruct (newest_some u rows i a En) as (Hi & _ & _).
  split; [exact Hi|]. split; [exact (newest_strict u rows i a Hnd En)|].
  rewrite !head_take, !head_history, En.
  rewrite (newest_insert (contact now new_notes) u rows i a); auto.
Qed.

Lemma marked_record_heads_history_witness :
  exists (i : nat) (a : AnalysisHistory),
    [mk 1 "cafe" 8 1000; mk 2 "cafe" 7 2000] !! i = Some a /\
    head (get_profile_history "cafe" 10 [mk 1 "cafe" 8 1000; mk 2 "cafe" 7 2000])
      = Some a /\
    head (get_profile_history "cafe" 10
            (snd (mark_contacted "cafe" None 5000
                    [mk 1 "cafe" 8 1000; mk 2 "cafe" 7 2000])))
      = Some (contact 5000 None a).
Proof.
  destruct (marked_record_heads_history "cafe" None 5000
              [mk 1 "cafe" 8 1000; mk 2 "cafe" 7 2000] 9)
    as (i & a & Hi & _ & Hh & _ & Hh' & _).
  - apply (bool_decide_unpack (NoDup _)). vm_compute. exact I.
  - reflexivity.
  - exists i, a. split; [exact Hi|]. split; [exact Hh | exact Hh'].
Defined.

(** Two rows that agree on what [get_top_opportunities] looks at. *)
Local Abbreviation same_rank :=
  (fun r r' : AnalysisHistory =>
     id r = id r' /\ username r = username r' /\
     analyzed_at r = analyzed_at r' /\
     opportunity_score r = opportunity_score r').

Lemma same_rank_filter (P Q : AnalysisHistory -> Prop)
    `{forall x, Decision (P x)} `{forall x, Decision (Q x)} (l l' : Table) :
  (forall x y, same_rank x y -> (P x <-> Q y)) ->
  Forall2 same_rank l l' ->
  Forall2 same_rank (filter P l) (filter Q l').
Proof.
  intros HPQ. induction 1 as [|x y l l' Hxy Hl IH]; [constructor|].
  rewrite !filter_cons. specialize (HPQ x y Hxy).
  destruct (decide (P x)), (decide (Q y)); try tauto.
  now constructor.
Qed.

Lemma same_rank_group (u : string) (l l' : Table) :
  Forall2 same_rank l l' ->
  map analyzed_at (filter (fun r => username r = u) l)
  = map analyzed_at (filter (fun r => username r = u) l').
Proof.
  induction 1 as [|x y l l' (_ & Hu & Ht & _) Hl IH]; [reflexivity|].
  rewrite !filter_cons.
  destruct (decide (username x = u)), (decide (username y = u));
    try congruence.
  cbn [map]. now rewrite Ht, IH.
Qed.

Lemma same_rank_insert_desc (x y : AnalysisHistory) (l l' : Table) :
  same_rank x y ->
  Forall2 same_rank l l' ->
  Forall2 same_rank (Py.insert_desc opportunity_score x l)
                    (Py.insert_desc opportunity_score y l').
Proof.
  intros Hxy. induction 1 as [|a b l l' Hab Hl IH]; cbn [Py.insert_desc].
  - constructor; [exact Hxy | constructor].
  - pose proof Hxy as (_ & _ & _ & Hsx). pose proof Hab as (_ & _ & _ & Hsa).
    rewrite <- Hsx, <- Hsa.
    destruct (Py.leb (opportunity_score a) (opportunity_score x)).
    + constructor; [exact Hxy|]. constructor; [exact Hab | exact Hl].
    + constructor; [exact Hab | exact IH].
Qed.

(** [get_top_opportunities] looks at the username, the timestamp and the
    score of each row only. *)
Lemma same_rank_top_opportunities (min_score : Q) (limit : nat) (l l' : Table) :
  Forall2 same_rank l l' ->
  Forall2 same_rank (get_top_opportunities min_score limit l)
                    (get_top_opportunities min_score limit l').
Proof.
  intros H. unfold get_top_opportunities. rewrite !join_latest_filter.
  apply Forall2_take.
  assert (Hk : Forall2 same_rank
    (filter (fun r => Py.leb min_score (opportunity_score r) = true)
       (filter (fun r => analyzed_at r = max_analyzed_at l (username r)) l))
    (filter (fun r => Py.leb min_score (opportunity_score r) = true)
       (filter (fun r => analyzed_at r = max_analyzed_at l' (username r)) l'))).
  { apply same_rank_filter.
    - intros x y (_ & _ & _ & Hs). now rewrite Hs.
    - apply same_rank_filter; [|exact H].
      intros x y (_ & Hu & Ht & _). unfold max_analyzed_at.
      now rewrite (same_rank_group (username x) l l' H), Hu, Ht. }
  induction Hk as [|x y k k' Hxy Hk IH]; [constructor|].
  unfold Py.sort_desc. cbn [fold_right]. now apply same_rank_insert_desc.
Qed.

Lemma same_rank_rewrite (f : AnalysisHistory -> AnalysisHistory) (rows : Table)
    (i : nat) (a : AnalysisHistory) :
  (forall x, same_rank x (f x)) ->
  rows !! i = Some a ->
  Forall2 same_rank rows (<[i := f a]> rows).
Proof.
  intros Hf Hi. rewrite <- (list_insert_id rows i a Hi) at 1.
  apply Forall2_insert; [|apply Hf].
  clear. induction rows; constructor; auto.
Qed.

Lemma same_rank_refl (rows : Table) : Forall2 same_rank rows rows.
Proof. induction rows; constructor; auto. Qed.

Lemma same_rank_columns (l l' : Table) :
  Forall2 same_rank l l' ->
  map id l' = map id l /\
  map opportunity_score l' = map opportunity_score l.
Proof.
  induction 1 as [|x y l l' (Hi & _ & _ & Hs) Hl [IH1 IH2]]; [auto|].
  cbn [map]. now rewrite IH1, IH2, Hi, Hs.
Qed.

(** Both marking operations leave the id, the username, the timestamp
    and the score of every row as they were. *)
Lemma same_rank_marked (u : string) (new_notes : option string) (now : Z)
    (rows rows' : Table) :
  rows' = snd (mark_contacted u new_notes now rows) \/
  rows' = snd (mark_converted u new_notes now rows) ->
  Forall2 same_rank rows rows'.
Proof.
  intros [-> | ->].
  - unfold mark_contacted.
    destruct (newest u rows) as [[i a]|] eqn:En; cbn [snd];
      [|apply same_rank_refl].
    apply same_rank_rewrite; [now intros x|].
    now destruct (newest_some u rows i a En).
  - unfold mark_converted.
    destruct (newest u rows) as [[i a]|] eqn:En; cbn [snd];
      [|apply same_rank_refl].
    apply same_rank_rewrite; [now intros x|].
    now destruct (newest_some u rows i a En).
Qed.

(** X13.  Marking a lead as contacted or as converted does not change
    the ranking.  [get_top_opportunities] returns the same scores in the
    same order before and after; the rows of the same ids when the limit
    does not cut the ranking; and the rows of the same ids in the same
    order, for every limit, when no two leads of the ranking tie in
    score. *)
Theorem marking_keeps_ranking :
  forall (u : string) (new_notes : option string) (now : Z)
         (rows rows' : Table) (min_score : Q) (limit : nat),
    rows' = snd (mark_contacted u new_notes now rows) \/
    rows' = snd (mark_converted u new_notes now rows) ->
    map opportunity_score (get_top_opportunities min_score limit rows')
      = map opportunity_score (get_top_opportunities min_score limit rows) /\
    ((length (get_top_opportunities min_score (length rows) rows) <= limit)%nat ->
     Permutation (map id (get_top_opportunities min_score limit rows'))
                 (map id (get_top_opportunities min_score limit rows))) /\
    (Sorted (fun a b => (opportunity_score b < opportunity_score a)%Q)
            (get_top_opportunities min_score (length rows) rows) ->
     map id (get_top_opportunities min_score limit rows')
       = map id (get_top_opportunities min_score limit rows)).
Proof.
  intros u new_notes now rows rows' min_score limit Hmark.
  pose proof (same_rank_marked u new_notes now rows rows' Hmark) as Hsame.
  destruct (same_rank_columns _ _
              (same_rank_top_opportunities min_score limit _ _ Hsame))
    as [Hid Hscore].
  split; [exact Hscore|]. split; intros _; now rewrite Hid.
Qed.

Lemma marking_keeps_ranking_witness :
  map id (get_top_opportunities 5 20
            (snd (mark_contacted "cafe" None 5000
                    [mk 1 "cafe" 8 1000; mk 2 "cafe" 7 2000; mk 3 "bar" 9 1500])))
    = [3; 2] /\
  map opportunity_score
      (get_top_opportunities 5 20
         (snd (mark_contacted "cafe" None 5000
                 [mk 1 "cafe" 8 1000; mk 2 "cafe" 7 2000; mk 3 "bar" 9 1500])))
    = [9%Q; 7%Q].
Proof.
  destruct (marking_keeps_ranking "cafe" None 5000
              [mk 1 "cafe" 8 1000; mk 2 "cafe" 7 2000; mk 3 "bar" 9 1500]
              (snd (mark_contacted "cafe" None 5000
                      [mk 1 "cafe" 8 1000; mk 2 "cafe" 7 2000; mk 3 "bar" 9 1500]))
              5 20)
    as (Hscore & _ & Hid).
  - left. reflexivity.
  - split.
    + rewrite Hid; [vm_compute; reflexivity|].
      vm_compute. repeat constructor.
    + rewrite Hscore. vm_compute. reflexivity.
Defined.

(** X14.  When no two analyses of a username carry the same timestamp,
    [mark_contacted] followed by [mark_converted] for the same username
    rewrites one and the same row, the analysis strictly newer than the
    username's others, which ends both contacted and converted; the table
    keeps its other rows. *)
Theorem contacted_then_converted :
  forall (u : string) (notes1 notes2 : option string) (t1 t2 : Z) (rows : Table),
    NoDup (map (fun r => (username r, analyzed_at r)) rows) ->
    fst (mark_contacted u notes1 t1 rows) = true ->
    exists (i : nat) (a : AnalysisHistory),
      rows !! i = Some a /\
      (forall (j : nat) (r : AnalysisHistory),
          rows !! j = Some r -> username r = u -> j <> i ->
          analyzed_at r < analyzed_at a) /\
      mark_converted u notes2 t2 (snd (mark_contacted u notes1 t1 rows))
        = (true, <[i := convert t2 notes2 (contact t1 notes1 a)]> rows) /\
      contacted (convert t2 notes2 (contact t1 notes1 a)) = true /\
      converted_to_client (convert t2 notes2 (contact t1 notes1 a)) = true /\
      contacted_date (convert t2 notes2 (contact t1 notes1 a)) = Some t1 /\
      conversion_date (convert t2 notes2 (contact t1 notes1 a)) = Some t2 /\
      (forall j : nat,
          j <> i ->
          snd (mark_converted u notes2 t2 (snd (mark_contacted u notes1 t1 rows))) !! j
            = rows !! j).
Proof.
  intros u notes1 notes2 t1 t2 rows Hnd. unfold mark_contacted.
  destruct (newest u rows) as [[i a]|] eqn:En; [|discriminate].
  intros _. cbn [snd]. exists i, a.
  destruct (newest_some u rows i a En) as (Hi & _ & _).
  split; [exact Hi|]. split; [exact (newest_strict u rows i a Hnd En)|].
  unfold mark_converted.
  rewrite (newest_insert (contact t1 notes1) u rows i a); auto.
  rewrite list_insert_insert_eq.
  repeat split; auto.
  intros j Hj. cbn [snd]. now apply list_lookup_insert_ne.
Qed.

Lemma contacted_then_converted_witness :
  exists (i : nat) (a : AnalysisHistory),
    [mk 1 "cafe" 8 1000; mk 2 "cafe" 7 2000] !! i = Some a /\
    mark_converted "cafe" None 6000
      (snd (mark_contacted "cafe" (Some "called") 5000
              [mk 1 "cafe" 8 1000; mk 2 "cafe" 7 2000]))
    = (true, <[i := convert 6000 None (contact 5000 (Some "called") a)]>
               [mk 1 "cafe" 8 1000; mk 2 "cafe" 7 2000]).
Proof.
  destruct (contacted_then_converted "cafe" (Some "called") None 5000 6000
              [mk 1 "cafe" 8 1000; mk 2 "cafe" 7 2000])
    as (i & a & Hi & _ & Hm & _).
  - apply (bool_decide_unpack (NoDup _)). vm_compute. exact I.
  - reflexivity.
  - exists i, a. split; [exact Hi | exact Hm].
Defined.

End StoreQueries.

(** ** The businesses table *)

Module BusinessesProps.
Import Businesses.

Lemma get_none (business_id : Z) (rows : list Business) :
  get business_id rows = None <-> Forall (fun b => id b <> business_id) rows.
Proof.
  induction rows as [|b rest IH]; cbn [get].
  - split; [constructor | reflexivity].
  - destruct (id b =? business_id) eqn:E.
    + apply Z.eqb_eq in E. split; [discriminate|].
      intros H. inversion H; subst. contradiction.
    + apply Z.eqb_neq in E. destruct (get business_id rest) as [[i x]|].
      * split; [discriminate|]. intros H. inversion H as [|? ? _ Hr]; subst.
        apply IH in Hr. discriminate.
      * split; [|reflexivity]. intros _. constructor; [exact E | now apply IH].
Qed.

Lemma get_some (business_id : Z) (rows : list Business) (i : nat) (b : Business) :
  get business_id rows = Some (i, b) ->
  rows !! i = Some b /\ id b = business_id.
Proof.
  revert i. induction rows as [|r rest IH]; cbn [get]; intros i H; [discriminate|].
  destruct (id r =? business_id) eqn:E.
  - injection H as <- <-. split; [reflexivity | now apply Z.eqb_eq].
  - destruct (get business_id rest) as [[j x]|]; [|discriminate].
    injection H as <- <-. now apply IH.
Qed.

Lemma lookup_map {A B : Type} (f : A -> B) (l : list A) (i : nat) (x : A) :
  l !! i = Some x -> map f l !! i = Some (f x).
Proof.
  revert i. induction l as [|y l IH]; intros [|i] H; try discriminate.
  - injection H as ->. reflexivity.
  - cbn. now apply IH.
Qed.

(** X15.  A business whose analysis has just been recorded is not listed
    as needing analysis until 7 days have passed: for every instant up to
    7 days after the update, [get_businesses_needing_analysis] returns no
    row of that id (ids being unique, as a primary key is). *)
Theorem analyzed_business_rests_a_week :
  forall (business_id : Z) (score : Q) (now later : Z) (limit : nat)
         (rows : list Business),
    NoDup (map id rows) ->
    fst (update_business_analysis business_id score now rows) = true ->
    later <= now + Py.timedelta_days 7 ->
    Forall (fun b => id b <> business_id)
           (get_businesses_needing_analysis limit later
              (snd (update_business_analysis business_id score now rows))).
Proof.
  intros business_id score now later limit rows Hnd Hok Hlater.
  unfold update_business_analysis in *.
  destruct (get business_id rows) as [[i b]|] eqn:Eg; [|discriminate].
  destruct (get_some business_id rows i b Eg) as (Hi & Hid).
  cbn [snd]. unfold get_businesses_needing_analysis.
  apply Forall_take. apply Forall_forall. intros x Hx Hxid.
  apply list_elem_of_filter in Hx as [Hneeds Hx].
  apply list_elem_of_lookup in Hx as [j Hj].
  destruct (decide (j = i)) as [->|Hne].
  - rewrite list_lookup_insert_eq in Hj by (eapply lookup_lt_Some; exact Hi).
    injection Hj as <-. unfold needs_analysis, analyzed in Hneeds.
    cbn in Hneeds. destruct (instagram_username b); [|discriminate].
    apply andb_true_iff in Hneeds as [_ Hlt]. apply Z.ltb_lt in Hlt.
    unfold Py.timedelta_days in *. lia.
  - rewrite list_lookup_insert_ne in Hj by congruence.
    apply Hne. apply (NoDup_lookup _ _ _ (id x) Hnd).
    + exact (lookup_map id _ _ _ Hj).
    + rewrite Hxid, <- Hid. exact (lookup_map id _ _ _ Hi).
Qed.

Lemma analyzed_business_rests_a_week_witness :
  Forall (fun b => id b <> 1)
         (get_businesses_needing_analysis 50 (8 * Py.DAY)
            (snd (update_business_analysis 1 7 (2 * Py.DAY)
                    [shop 1 (Some "cafe") true None;
                     shop 2 (Some "bar") true None]))).
Proof.
  apply analyzed_business_rests_a_week.
  - apply (bool_decide_unpack (NoDup _)). vm_compute. exact I.
  - reflexivity.
  - vm_compute. discriminate.
Defined.

(** X16.  Once more than 7 days have passed since the recorded analysis, an
    active business with an Instagram username needs analysis again: with a
    limit that covers the table it is back in the list, its analysis count
    one higher than before. *)
Theorem analyzed_business_is_due_after_a_week :
  forall (business_id : Z) (score : Q) (now later : Z) (rows : list Business)
         (i : nat) (b : Business),
    get business_id rows = Some (i, b) ->
    is_active b = true ->
    instagram_username b <> None ->
    now + Py.timedelta_days 7 < later ->
    update_business_analysis business_id score now rows
      = (true, <[i := analyzed score now b]> rows) /\
    analysis_count (analyzed score now b) = analysis_count b + 1 /\
    analyzed score now b ∈
      get_businesses_needing_analysis (length rows) later
        (snd (update_business_analysis business_id score now rows)).
Proof.
  intros business_id score now later rows i b Eg Hact Hu Hlater.
  unfold update_business_analysis. rewrite Eg. cbn [snd].
  split; [reflexivity|]. split; [reflexivity|].
  destruct (get_some business_id rows i b Eg) as (Hi & _).
  unfold get_businesses_needing_analysis. rewrite take_ge.
  - apply list_elem_of_filter. split.
    + unfold needs_analysis, analyzed. cbn.
      destruct (instagram_username b); [|congruence].
      rewrite Hact. cbn. apply Z.ltb_lt. unfold Py.timedelta_days in *. lia.
    + apply list_elem_of_lookup. exists i.
      apply list_lookup_insert_eq. eapply lookup_lt_Some; exact Hi.
  - etransitivity; [apply length_filter|]. now rewrite length_insert.
Qed.

Lemma analyzed_business_is_due_after_a_week_witness :
  analyzed 7 (2 * Py.DAY) (shop 1 (Some "cafe") true None) ∈
    get_businesses_needing_analysis 2 (10 * Py.DAY)
      (snd (update_business_analysis 1 7 (2 * Py.DAY)
              [shop 1 (Some "cafe") true None; shop 2 (Some "bar") true None])).
Proof.
  refine (proj2 (proj2 (analyzed_business_is_due_after_a_week 1 7 (2 * Py.DAY)
            (10 * Py.DAY)
            [shop 1 (Some "cafe") true None; shop 2 (Some "bar") true None]
            0 (shop 1 (Some "cafe") true None) _ _ _ _))).
  - reflexivity.
  - reflexivity.
  - discriminate.
  - vm_compute. reflexivity.
Defined.

End BusinessesProps.

(** ** The profiles table *)

Module ProfilesProps.
Import Profiles.

Lemma existing_none (u : string) (rows : list InstagramProfile) :
  existing u rows = None <-> Forall (fun p => username (data p) <> u) rows.
Proof.
  induction rows as [|p rest IH]; cbn [existing].
  - split; [constructor | reflexivity].
  - destruct (decide (username (data p) = u)) as [E|E].
    + split; [discriminate|]. intros H. inversion H; subst. contradiction.
    + destruct (existing u rest) as [[i x]|].
      * split; [discriminate|]. intros H. inversion H as [|? ? _ Hr]; subst.
        apply IH in Hr. discriminate.
      * split; [|reflexivity]. intros _. constructor; [exact E | now apply IH].
Qed.

Lemma existing_some (u : string) (rows : list InstagramProfile) (i : nat)
    (p : InstagramProfile) :
  existing u rows = Some (i, p) ->
  rows !! i = Some p /\ username (data p) = u.
Proof.
  revert i. induction rows as [|r rest IH]; cbn [existing]; intros i H;
    [discriminate|].
  destruct (decide (username (data r) = u)) as [E|E].
  - injection H as <- <-. split; [reflexivity | exact E].
  - destruct (existing u rest) as [[j x]|]; [|discriminate].
    injection H as <- <-. now apply IH.
Qed.

(** Replacing the row found for [u] by another row of [u] changes no
    lookup but that of [u]. *)
Lemma existing_insert (u v : string) (rows : list InstagramProfile) (i : nat)
    (p q : InstagramProfile) :
  existing u rows = Some (i, p) ->
  username (data q) = u ->
  existing v (<[i := q]> rows)
  = if decide (v = u) then Some (i, q) else existing v rows.
Proof.
  intros H Hq. revert i H.
  induction rows as [|r rest IH]; cbn [existing]; intros i H; [discriminate|].
  destruct (decide (username (data r) = u)) as [E|E].
  - injection H as <- <-.
    change (<[0%nat := q]> (r :: rest)) with (q :: rest). cbn [existing].
    rewrite Hq, E.
    destruct (decide (u = v)) as [->|N].
    + now rewrite decide_True.
    + now rewrite decide_False by congruence.
  - destruct (existing u rest) as [[j x]|] eqn:Ee; [|discriminate].
    injection H as <- <-.
    change (<[S j := q]> (r :: rest)) with (r :: <[j := q]> rest).
    cbn [existing]. rewrite (IH j eq_refl).
    destruct (decide (username (data r) = v)) as [Ev|Ev].
    + rewrite decide_False by congruence. reflexivity.
    + destruct (decide (v = u)); reflexivity.
Qed.

Lemma existing_app (u v : string) (rows : list InstagramProfile)
    (q : InstagramProfile) :
  existing u rows = None ->
  username (data q) = u ->
  existing v (rows ++ [q])
  = if decide (v = u) then Some (length rows, q) else existing v rows.
Proof.
  intros H Hq. induction rows as [|r rest IH]; cbn [existing app length].
  - rewrite Hq. destruct (decide (u = v)) as [->|N].
    + now rewrite decide_True.
    + now rewrite decide_False by congruence.
  - cbn [existing] in H.
    destruct (decide (username (data r) = u)) as [E|E]; [discriminate|].
    destruct (existing u rest) as [[j x]|]; [discriminate|].
    rewrite (IH eq_refl).
    destruct (decide (username (data r) = v)) as [Ev|Ev].
    + rewrite decide_False by congruence. reflexivity.
    + destruct (decide (v = u)); reflexivity.
Qed.

(** X17.  [add_profile] and the lookup by username round-trip: the profile
    it returns carries the data given and is what a lookup of that username
    finds afterwards; the lookup of every other username finds what it
    found before. *)
Theorem add_profile_then_lookup :
  forall (profile_data : ProfileSummary) (now created crawled : Z)
         (rows : list InstagramProfile),
    data (fst (add_profile profile_data now created crawled rows)) = profile_data /\
    get_profile (username profile_data)
                (snd (add_profile profile_data now created crawled rows))
      = Some (fst (add_profile profile_data now created crawled rows)) /\
    forall v : string,
      v <> username profile_data ->
      get_profile v (snd (add_profile profile_data now created crawled rows))
        = get_profile v rows.
Proof.
  intros profile_data now created crawled rows.
  unfold add_profile, get_profile.
  destruct (existing (username profile_data) rows) as [[i p]|] eqn:Ee;
    cbn [fst snd data].
  - split; [reflexivity|]. split.
    + rewrite (existing_insert _ _ _ _ _ _ Ee) by reflexivity.
      now rewrite decide_True.
    + intros v Hv.
      rewrite (existing_insert _ _ _ _ _ _ Ee) by reflexivity.
      now rewrite decide_False.
  - split; [reflexivity|]. split.
    + rewrite (existing_app _ _ _ _ Ee) by reflexivity.
      now rewrite decide_True.
    + intros v Hv.
      rewrite (existing_app _ _ _ _ Ee) by reflexivity.
      now rewrite decide_False.
Qed.

Lemma usernames_insert (rows : list InstagramProfile) (i : nat)
    (p q : InstagramProfile) :
  rows !! i = Some p ->
  username (data q) = username (data p) ->
  map (fun x => username (data x)) (<[i := q]> rows)
  = map (fun x => username (data x)) rows.
Proof.
  revert i. induction rows as [|r rest IH]; intros [|i] H Hq; try discriminate.
  - injection H as ->. cbn. now rewrite Hq.
  - cbn. f_equal. now apply IH.
Qed.

(** X18.  [add_profile] keeps usernames unique.  For a username already in
    the table it rewrites that row in place (same number of rows, the date of
    first crawl kept, the date of last crawl set to now); for a new one it
    appends one row. *)
Theorem add_profile_keeps_usernames_unique :
  forall (profile_data : ProfileSummary) (now created crawled : Z)
         (rows : list InstagramProfile),
    NoDup (map (fun p => username (data p)) rows) ->
    NoDup (map (fun p => username (data p))
               (snd (add_profile profile_data now created crawled rows))) /\
    (forall old : InstagramProfile,
        get_profile (username profile_data) rows = Some old ->
        length (snd (add_profile profile_data now created crawled rows))
          = length rows /\
        first_crawled (fst (add_profile profile_data now created crawled rows))
          = first_crawled old /\
        last_crawled (fst (add_profile profile_data now created crawled rows))
          = now) /\
    (get_profile (username profile_data) rows = None ->
     snd (add_profile profile_data now created crawled rows)
       = rows ++ [fst (add_profile profile_data now created crawled rows)]).
Proof.
  intros profile_data now created crawled rows Hnd.
  unfold add_profile, get_profile.
  destruct (existing (username profile_data) rows) as [[i p]|] eqn:Ee;
    cbn [fst snd].
  - destruct (existing_some _ _ _ _ Ee) as (Hi & Hu).
    split; [|split].
    + now rewrite (usernames_insert rows i p).
    + intros old Hold. injection Hold as <-.
      split; [apply length_insert | split; reflexivity].
    + discriminate.
  - split; [|split].
    + rewrite map_app. cbn [map data].
      apply NoDup_app. split; [exact Hnd|]. split; [|apply NoDup_singleton].
      intros u Hu Hin. apply list_elem_of_singleton in Hin. subst u.
      apply existing_none in Ee. rewrite Forall_forall in Ee.
      apply list_elem_of_In in Hu. apply in_map_iff in Hu.
      destruct Hu as (x & Hx & Hxin). apply list_elem_of_In in Hxin.
      now apply (Ee x Hxin).
    + discriminate.
    + reflexivity.
Qed.

Lemma add_profile_keeps_usernames_unique_witness :
  NoDup (map (fun p => username (data p))
             (snd (add_profile (summary "cafe" 900) 50 50 50
                     [ {| data := summary "cafe" 700;
                          first_crawled := 10; last_crawled := 10 |};
                       {| data := summary "bar" 80;
                          first_crawled := 20; last_crawled := 20 |} ]))).
Proof.
  apply add_profile_keeps_usernames_unique.
  apply (bool_decide_unpack (NoDup _)). vm_compute. exact I.
Defined.

End ProfilesProps.

(** ** The API server: what the cache does and what a batch reports *)

Module ApiCache.
Import Api ApiFacts.

Section WithAnalyzer.
Variable analyze_username : Z -> string -> Gathered.

(** What [run_analysis] does to the cache and to the store. *)
Lemma run_analysis_state (now : Z) (u : string) (s : Server) :
  match analyze_username now u with
  | Val (Analyzer.Report a) =>
      analysis_cache (snd (run_analysis analyze_username now u s))
        = <[u := a]> (analysis_cache s) /\
      stored (snd (run_analysis analyze_username now u s)) = stored s ++ [a]
  | _ =>
      analysis_cache (snd (run_analysis analyze_username now u s))
        = analysis_cache s /\
      stored (snd (run_analysis analyze_username now u s)) = stored s
  end.
Proof.
  unfold run_analysis.
  destruct (analyze_username now u) as [msg|[e sc|a]]; cbn; auto.
Qed.

(** X19.  An analysis never evicts: whatever [analyze_profile_async] does
    for one username, the cache entries of all other usernames stay as they
    are, every username that had an entry still has one, the number of
    entries does not go down, and the stored analyses and the executor log
    only grow at their end. *)
Theorem analysis_never_evicts :
  forall (now : Z) (u : string) (force_refresh : bool) (s : Server),
    (forall v : string,
        v <> u ->
        analysis_cache (snd (analyze_profile_async analyze_username now u
                               force_refresh s)) !! v
          = analysis_cache s !! v) /\
    (forall v : string,
        is_Some (analysis_cache s !! v) ->
        is_Some (analysis_cache (snd (analyze_profile_async analyze_username now u
                                        force_refresh s)) !! v)) /\
    (cached_profiles s
     <= cached_profiles (snd (analyze_profile_async analyze_username now u
                                force_refresh s)))%nat /\
    stored s `prefix_of`
      stored (snd (analyze_profile_async analyze_username now u force_refresh s)) /\
    executor_calls s `prefix_of`
      executor_calls (snd (analyze_profile_async analyze_username now u
                             force_refresh s)).
Proof.
  intros now u force_refresh s. unfold analyze_profile_async, cached_profiles.
  destruct (cache_hit now u force_refresh (analysis_cache s)) as [c|];
    cbn [snd].
  - repeat split; auto.
  - pose proof (run_analysis_state now u s) as Hst.
    pose proof (run_analysis_calls analyze_username now u s) as Hc.
    rewrite Hc.
    destruct (analyze_username now u) as [msg|[e sc|a]];
      destruct Hst as [-> ->].
    + repeat split; auto. now apply prefix_app_r.
    + repeat split; auto. now apply prefix_app_r.
    + split; [|split; [|split; [|split]]].
      * intros v Hv. now apply lookup_insert_ne.
      * intros v Hv. destruct (decide (u = v)) as [->|N].
        -- rewrite lookup_insert_eq. eauto.
        -- now rewrite lookup_insert_ne.
      * destruct (analysis_cache s !! u) as [c|] eqn:Ec.
        -- rewrite map_size_insert_Some by eauto. lia.
        -- rewrite map_size_insert_None by exact Ec. lia.
      * now apply prefix_app_r.
      * now apply prefix_app_r.
Qed.

(** X20.  The executor is called for a username exactly on a miss:
    [force_refresh] set, no entry, or an entry of 24 hours or more.  On a hit
    the server is left as it was and the cached report is the answer. *)
Theorem executor_called_exactly_on_miss :
  forall (now : Z) (u : string) (force_refresh : bool) (s : Server),
    let miss :=
      force_refresh
      || match analysis_cache s !! u with
         | None => true
         | Some cached => FRESH <=? now - Analyzer.analyzed_at cached
         end in
    executor_calls (snd (analyze_profile_async analyze_username now u
                           force_refresh s))
      = executor_calls s ++ (if miss then [u] else []) /\
    (if miss
     then fst (analyze_profile_async analyze_username now u force_refresh s)
          = analyze_username now u
     else exists cached,
          analysis_cache s !! u = Some cached /\
          analyze_profile_async analyze_username now u force_refresh s
            = (Val (Analyzer.Report cached), s)).
Proof.
  intros now u force_refresh s miss. subst miss.
  unfold analyze_profile_async, cache_hit.
  destruct force_refresh; cbn [negb orb].
  - split; [apply run_analysis_calls | apply run_analysis_value].
  - destruct (analysis_cache s !! u) as [c|] eqn:Ec.
    + destruct (now - Analyzer.analyzed_at c <? FRESH) eqn:Hf.
      * apply Z.ltb_lt in Hf.
        destruct (FRESH <=? now - Analyzer.analyzed_at c) eqn:Hg;
          [apply Z.leb_le in Hg; lia|].
        cbn [snd]. split; [now rewrite app_nil_r | eauto].
      * apply Z.ltb_ge in Hf.
        destruct (FRESH <=? now - Analyzer.analyzed_at c) eqn:Hg;
          [|apply Z.leb_gt in Hg; lia].
        split; [apply run_analysis_calls | apply run_analysis_value].
    + split; [apply run_analysis_calls | apply run_analysis_value].
Qed.

(** X21.  [clear_cache] reports the number of entries the cache held and
    leaves none, without touching what was stored; the next analysis of
    any username, forced or not, goes to the executor. *)
Theorem clear_cache_empties :
  forall (now : Z) (u : string) (force_refresh : bool) (s : Server),
    fst (clear_cache s) = cached_profiles s /\
    cached_profiles (snd (clear_cache s)) = 0%nat /\
    stored (snd (clear_cache s)) = stored s /\
    (forall v : string, analysis_cache (snd (clear_cache s)) !! v = None) /\
    executor_calls (snd (analyze_profile_async analyze_username now u
                           force_refresh (snd (clear_cache s))))
      = executor_calls s ++ [u].
Proof.
  intros now u force_refresh s. unfold clear_cache, cached_profiles.
  cbn [fst snd analysis_cache stored].
  split; [reflexivity|]. split; [apply map_size_empty|].
  split; [reflexivity|]. split; [intros v; apply lookup_empty|].
  unfold analyze_profile_async, cache_hit. cbn [analysis_cache].
  rewrite lookup_empty.
  destruct (negb force_refresh);
    exact (run_analysis_calls analyze_username now u
             {| analysis_cache := ∅; stored := stored s;
                executor_calls := executor_calls s |}).
Qed.

(** X22.  What [analyze_single_profile] answers and what the cache holds
    agree: a 200 carries the report the cache holds for that username
    afterwards; the only errors are 404 (an error result) and 500 (an
    exception), and neither changes the cache or stores anything. *)
Theorem single_profile_answer :
  forall (now : Z) (u : string) (force_refresh : bool) (s : Server),
    match fst (analyze_single_profile analyze_username now u force_refresh s) with
    | Ok200 a =>
        analysis_cache
          (snd (analyze_single_profile analyze_username now u force_refresh s)) !! u
          = Some a
    | Error status detail =>
        (status = 404 /\
         (exists sc, analyze_username now u = Val (Analyzer.ErrorResult detail sc))
         \/ status = 500 /\ analyze_username now u = Exc detail) /\
        analysis_cache
          (snd (analyze_single_profile analyze_username now u force_refresh s))
          = analysis_cache s /\
        stored
          (snd (analyze_single_profile analyze_username now u force_refresh s))
          = stored s
    end.
Proof.
  intros now u force_refresh s.
  unfold analyze_single_profile, analyze_profile_async.
  destruct (cache_hit now u force_refresh (analysis_cache s)) as [c|] eqn:Eh.
  - cbn [fst snd]. unfold cache_hit in Eh.
    destruct (negb force_refresh); [|discriminate].
    destruct (analysis_cache s !! u) as [c'|]; [|discriminate].
    destruct (_ <? _); [|discriminate]. now injection Eh as ->.
  - pose proof (run_analysis_state now u s) as Hst.
    pose proof (run_analysis_value analyze_username now u s) as Hv.
    destruct (run_analysis analyze_username now u s) as [g s'].
    cbn [fst snd] in *. subst g.
    destruct (analyze_username now u) as [msg|[e sc|a]];
      destruct Hst as [Hc Hs]; cbn [fst snd].
    + split; [right; auto | auto].
    + split; [left; eauto | auto].
    + rewrite Hc. apply lookup_insert_eq.
Qed.

Lemma zip_map {A B : Type} (f : A -> B) (l : list A) :
  zip l (map f l) = map (fun u => (u, f u)) l.
Proof. induction l as [|x l IH]; cbn; [reflexivity | now rewrite IH]. Qed.

(** What the loop over the gathered outcomes adds to its two lists. *)
Lemma collect_counts (min_score : Q) (f : string -> Gathered)
    (names : list string) (rs : list Analyzer.Analysis)
    (es : list (string * string)) :
  length (fst (collect min_score (map (fun u => (u, f u)) names) rs es))
  = (length rs
     + length (List.filter
                 (fun g => match g with
                           | Val (Analyzer.Report a) =>
                               Py.leb min_score (Analyzer.opportunity_score a)
                           | _ => false
                           end)
                 (map f names)))%nat /\
  length (snd (collect min_score (map (fun u => (u, f u)) names) rs es))
  = (length es
     + length (List.filter
                 (fun g => match g with
                           | Val (Analyzer.Report _) => false
                           | _ => true
                           end)
                 (map f names)))%nat /\
  (Forall (fun a => (min_score <= Analyzer.opportunity_score a)%Q) rs ->
   Forall (fun a => (min_score <= Analyzer.opportunity_score a)%Q)
          (fst (collect min_score (map (fun u => (u, f u)) names) rs es))).
Proof.
  revert rs es. induction names as [|u rest IH]; intros rs es.
  - cbn. repeat split; auto; lia.
  - cbn [map collect List.filter].
    destruct (f u) as [msg|[e sc|a]].
    + destruct (IH rs (es ++ [(u, msg)])) as (H1 & H2 & H3).
      rewrite length_app in H2. cbn [length] in *.
      repeat split; auto; lia.
    + destruct (IH rs (es ++ [(u, e)])) as (H1 & H2 & H3).
      rewrite length_app in H2. cbn [length] in *.
      repeat split; auto; lia.
    + destruct (Py.leb min_score (Analyzer.opportunity_score a)) eqn:E.
      * destruct (IH (rs ++ [a]) es) as (H1 & H2 & H3).
        rewrite length_app in H1. cbn [length] in *.
        repeat split; auto; try lia.
        intros Hrs. apply H3. apply Forall_app. split; [exact Hrs|].
        repeat constructor. now apply PyFacts.leb_le.
      * destruct (IH rs es) as (H1 & H2 & H3). repeat split; auto.
Qed.

(** X23.  What a batch reports, for any request: [total_analyzed] is the
    number of usernames asked for; [failed] counts the usernames whose
    analysis raised or returned an error; [successful] counts the reports
    whose score reaches [min_opportunity_score] (so the two need not add up
    to the total); the results are those reports, all at or above the
    threshold, in descending order of score; [errors] is absent exactly when
    nothing failed. *)
Theorem batch_report_counts :
  forall (now : Z) (request : BatchAnalyzeRequest) (s : Server),
    let outcomes :=
      map (fun u : string =>
             match cache_hit now u false (analysis_cache s) with
             | Some cached => Val (Analyzer.Report cached)
             | None => analyze_username now u
             end)
          (usernames request) in
    let response := fst (batch_analyze_profiles analyze_username now request s) in
    total_analyzed response = length (usernames request) /\
    failed response
      = length (List.filter
                  (fun g => match g with
                            | Val (Analyzer.Report _) => false
                            | _ => true
                            end)
                  outcomes) /\
    successful response
      = length (List.filter
                  (fun g => match g with
                            | Val (Analyzer.Report a) =>
                                Py.leb (min_opportunity_score request)
                                       (Analyzer.opportunity_score a)
                            | _ => false
                            end)
                  outcomes) /\
    successful response = length (results response) /\
    (successful response + failed response <= total_analyzed response)%nat /\
    Forall (fun a => (min_opportunity_score request
                      <= Analyzer.opportunity_score a)%Q)
           (results response) /\
    Sorted (fun a b => (Analyzer.opportunity_score b
                        <= Analyzer.opportunity_score a)%Q)
           (results response) /\
    (errors response = None <-> failed response = 0%nat).
Proof.
  intros now request s outcomes response.
  pose proof (batch_results_sorted analyze_username now request s) as Hsorted.
  fold response in Hsorted.
  subst response. unfold batch_analyze_profiles in *.
  pose proof (gather_values analyze_username now (analysis_cache s)
                (usernames request) s) as Hg.
  destruct (gather analyze_username now (analysis_cache s) (usernames request) s)
    as [analyses s'].
  cbn [fst] in Hg. subst analyses. rewrite zip_map in *.
  pose proof (collect_counts (min_opportunity_score request)
                (fun u : string =>
                   match cache_hit now u false (analysis_cache s) with
                   | Some cached => Val (Analyzer.Report cached)
                   | None => analyze_username now u
                   end)
                (usernames request) [] []) as (H1 & H2 & H3).
  fold outcomes in H1, H2.
  destruct (collect _ _ _ _) as [rs es].
  cbn [fst snd length plus successful failed total_analyzed results errors] in *.
  assert (Hlen : length (Py.sort_desc Analyzer.opportunity_score rs) = length rs)
    by (now rewrite (PyFacts.sort_desc_perm _ _)).
  split; [reflexivity|]. split; [exact H2|].
  split; [now rewrite Hlen|]. split; [reflexivity|].
  split.
  { rewrite Hlen, H1, H2.
    replace (length (usernames request)) with (length outcomes)
      by (subst outcomes; apply length_map).
    clearbody outcomes. clear.
    induction outcomes as [|g l IH]; cbn [List.filter length]; [lia|].
    destruct g as [msg|[e sc|a]]; cbn [length]; try lia.
    destruct (Py.leb _ _); cbn [length]; lia. }
  split.
  { rewrite (PyFacts.sort_desc_perm _ _). apply H3. constructor. }
  split; [exact Hsorted|].
  destruct es as [|e es]; cbn [Py.truthy length]; split; intros H;
    try reflexivity; try discriminate.
Qed.

(** The executor log of a batch. *)
Lemma gather_calls (now : Z) (cache0 : gmap string Analyzer.Analysis)
    (names : list string) (s : Server) :
  executor_calls (snd (gather analyze_username now cache0 names s))
  = executor_calls s
    ++ List.filter (fun u => match cache_hit now u false cache0 with
                             | Some _ => false
                             | None => true
                             end) names.
Proof.
  revert s. induction names as [|u rest IH]; intros s.
  - cbn. now rewrite app_nil_r.
  - cbn [gather List.filter].
    destruct (cache_hit now u false cache0) as [c|].
    + specialize (IH s).
      destruct (gather analyze_username now cache0 rest s) as [l s2].
      exact IH.
    + pose proof (run_analysis_calls analyze_username now u s) as Hc.
      destruct (run_analysis analyze_username now u s) as [g s1].
      specialize (IH s1).
      destruct (gather analyze_username now cache0 rest s1) as [l s2].
      cbn [snd] in *. rewrite IH, Hc. now rewrite <- app_assoc.
Qed.

(** X24.  A batch sends to the executor, in request order, every username
    for which the cache held no fresh entry when the batch began, a username
    listed twice being sent twice; a failure of one does not keep the
    others from being sent. *)
Theorem batch_submits_every_miss :
  forall (now : Z) (request : BatchAnalyzeRequest) (s : Server),
    executor_calls (snd (batch_analyze_profiles analyze_username now request s))
    = executor_calls s
      ++ List.filter
           (fun u => match cache_hit now u false (analysis_cache s) with
                     | Some _ => false
                     | None => true
                     end)
           (usernames request).
Proof.
  intros now request s. unfold batch_analyze_profiles.
  pose proof (gather_calls now (analysis_cache s) (usernames request) s) as H.
  destruct (gather analyze_username now (analysis_cache s) (usernames request) s)
    as [analyses s'].
  destruct (collect _ _ _ _) as [rs es]. exact H.
Qed.

End WithAnalyzer.

End ApiCache.

(** ** The scheduler: counts, due jobs and the weekly report *)

Module SchedulerRuns.
Import Scheduler SchedulerFacts.

Section WithEnvironment.
Variable clock : nat -> Z.
Variable search_businesses : CrawlJob -> option (list Business).
Variable analyze_and_store : string -> nat -> option Analyzer.Analysis * nat.

Lemma analyze_businesses_bounds (job : CrawlJob) (businesses : list Business)
    (n0 k0 : Z) (reads : nat) :
  let r := analyze_businesses analyze_and_store job businesses n0 k0 reads in
  n0 <= fst (fst r) <= n0 + Z.of_nat (length businesses) /\
  k0 <= snd (fst r) /\
  snd (fst r) - k0 <= fst (fst r) - n0.
Proof.
  revert n0 k0 reads.
  induction businesses as [|b rest IH]; intros n0 k0 reads; cbn zeta.
  - cbn. lia.
  - cbn [analyze_businesses length].
    destruct (instagram_username b) as [[|c u]|].
    + specialize (IH n0 k0 reads). cbn zeta in IH. lia.
    + destruct (analyze_and_store (String c u) reads) as [[a|] reads'].
      * destruct (Py.leb (min_opportunity_score job) (Analyzer.opportunity_score a)).
        -- specialize (IH (n0 + 1) (k0 + 1) reads'). cbn zeta in IH. lia.
        -- specialize (IH (n0 + 1) k0 reads'). cbn zeta in IH. lia.
      * specialize (IH n0 k0 reads'). cbn zeta in IH. lia.
    + specialize (IH n0 k0 reads). cbn zeta in IH. lia.
Qed.

(** X25.  The counts of a completed run are consistent: the opportunities
    found are among the profiles analyzed, and the profiles analyzed (the
    number that goes to [profiles_found]) among the businesses found. *)
Theorem run_counts_are_consistent :
  forall (job : CrawlJob) (w : World) (businesses : list Business),
    search_businesses job = Some businesses ->
    exists n k : Z,
      fst (run_crawl_job clock search_businesses analyze_and_store job w)
        = Completed n k /\
      0 <= k <= n /\
      n <= Z.of_nat (length businesses) /\
      Forall (fun j => id j = id job -> profiles_found j = n)
             (crawl_jobs (snd (run_crawl_job clock search_businesses
                                 analyze_and_store job w))).
Proof.
  intros job w businesses Hs. unfold run_crawl_job. rewrite Hs.
  pose proof (analyze_businesses_bounds job businesses 0 0 (clock_reads w)) as Hb.
  cbn zeta in Hb.
  destruct (analyze_businesses analyze_and_store job businesses 0 0 (clock_reads w))
    as [[n k] t].
  cbn [fst snd] in Hb. exists n, k.
  cbn [datetime_now clock_reads crawl_jobs].
  rewrite calculate_next_run_value. cbn [fst snd crawl_jobs].
  split; [reflexivity|]. split; [lia|]. split; [lia|].
  eapply Forall_impl; [apply update_job_sets|]. cbn. intros j Hj Hid.
  now destruct (Hj Hid) as (_ & _ & Hp).
Qed.

Lemma run_due_jobs_failing (now : Z) (jobs : list CrawlJob) (w : World) :
  (forall j, search_businesses j = None) ->
  run_due_jobs clock search_businesses analyze_and_store now jobs w = w.
Proof.
  intros Hs. induction jobs as [|job rest IH]; [reflexivity|].
  cbn [run_due_jobs]. unfold run_crawl_job. rewrite Hs.
  destruct (due now job); exact IH.
Qed.

(** X26.  A run that fails advances nothing: when the business search
    raises, [check_and_run_jobs] leaves every row of [crawl_jobs] as it was,
    so each job that was due (same [next_run], same [last_run]) is due again
    at the next check. *)
Theorem failed_runs_stay_due :
  forall (w : World),
    (forall j, search_businesses j = None) ->
    crawl_jobs (check_and_run_jobs clock search_businesses analyze_and_store w)
      = crawl_jobs w /\
    forall (j : CrawlJob) (now later : Z),
      j ∈ crawl_jobs w ->
      due now j = true ->
      now <= later ->
      j ∈ crawl_jobs (check_and_run_jobs clock search_businesses
                        analyze_and_store w) /\
      due later j = true.
Proof.
  intros w Hs.
  assert (E : crawl_jobs (check_and_run_jobs clock search_businesses
                            analyze_and_store w) = crawl_jobs w).
  { unfold check_and_run_jobs, datetime_now.
    now rewrite run_due_jobs_failing. }
  split; [exact E|].
  intros j now later Hj Hdue Hlater. rewrite E. split; [exact Hj|].
  unfold due in *. destruct (next_run j) as [t|]; [|reflexivity].
  apply Z.leb_le in Hdue. apply Z.leb_le. lia.
Qed.

Lemma run_crawl_job_table (job : CrawlJob) (w : World) :
  crawl_jobs (snd (run_crawl_job clock search_businesses analyze_and_store job w))
    = crawl_jobs w \/
  exists last next found : Z,
    crawl_jobs (snd (run_crawl_job clock search_businesses analyze_and_store job w))
      = update_job (id job) last next found (crawl_jobs w).
Proof.
  unfold run_crawl_job.
  destruct (search_businesses job) as [businesses|]; [|now left].
  destruct (analyze_businesses _ _ _ _ _ _) as [[n k] t].
  cbn [datetime_now clock_reads crawl_jobs].
  rewrite calculate_next_run_value. cbn [snd crawl_jobs]. right. eauto.
Qed.

Lemma update_job_keeps (job_id last next found : Z) (jobs : list CrawlJob)
    (j : CrawlJob) :
  id j <> job_id -> j ∈ jobs -> j ∈ update_job job_id last next found jobs.
Proof.
  intros Hid Hj. unfold update_job.
  apply list_elem_of_In. apply in_map_iff. exists j.
  split; [|now apply list_elem_of_In].
  destruct (id j =? job_id) eqn:E; [|reflexivity].
  apply Z.eqb_eq in E. contradiction.
Qed.

Lemma run_due_jobs_keeps (now : Z) (jobs : list CrawlJob) (w : World)
    (j : CrawlJob) :
  Forall (fun job => due now job = true -> id job <> id j) jobs ->
  j ∈ crawl_jobs w ->
  j ∈ crawl_jobs (run_due_jobs clock search_businesses analyze_and_store
                    now jobs w).
Proof.
  intros H. revert w. induction H as [|job rest Hjob Hrest IH]; intros w Hj;
    [exact Hj|].
  cbn [run_due_jobs]. apply IH.
  destruct (due now job) eqn:Hd; [|exact Hj].
  destruct (run_crawl_job_table job w) as [-> | (l & n & f & ->)]; [exact Hj|].
  apply update_job_keeps; [|exact Hj]. intros E. now apply Hjob.
Qed.

Lemma unique_id (jobs : list CrawlJob) (x y : CrawlJob) :
  NoDup (map id jobs) -> x ∈ jobs -> y ∈ jobs -> id x = id y -> x = y.
Proof.
  induction jobs as [|j rest IH]; cbn [map]; intros Hnd Hx Hy E.
  - inversion Hx.
  - apply NoDup_cons in Hnd as [Hj Hnd].
    apply elem_of_cons in Hx as [->|Hx]; apply elem_of_cons in Hy as [->|Hy];
      auto.
    + exfalso. apply Hj. rewrite E. apply list_elem_of_In. apply in_map.
      now apply list_elem_of_In.
    + exfalso. apply Hj. rewrite <- E. apply list_elem_of_In. apply in_map.
      now apply list_elem_of_In.
Qed.

(** X27.  [check_and_run_jobs] touches due active jobs only: with unique
    job ids, a row that is inactive, or whose [next_run] lies after the
    instant of the check, is in the table afterwards exactly as it was. *)
Theorem idle_jobs_are_untouched :
  forall (w : World) (j : CrawlJob),
    NoDup (map id (crawl_jobs w)) ->
    j ∈ crawl_jobs w ->
    is_active j = false \/ due (clock (clock_reads w)) j = false ->
    j ∈ crawl_jobs (check_and_run_jobs clock search_businesses
                      analyze_and_store w).
Proof.
  intros w j Hnd Hj Hidle. unfold check_and_run_jobs, datetime_now.
  apply run_due_jobs_keeps; [|exact Hj].
  apply Forall_forall. intros job Hjob Hdue E.
  apply list_elem_of_filter in Hjob as [Hact Hin].
  assert (job = j) by (now apply (unique_id (crawl_jobs w))). subst job.
  destruct Hidle; congruence.
Qed.

End WithEnvironment.

Lemma run_counts_are_consistent_witness :
  exists n k : Z,
    fst (run_crawl_job ticking four_businesses some_analysis selective_job
           {| clock_reads := 0; crawl_jobs := [weekly_job; selective_job] |})
      = Completed n k /\
    n = 2 /\ k = 1 /\
    0 <= k <= n /\
    n <= 4 /\
    Forall (fun j => id j = 3 -> profiles_found j = 2)
           (crawl_jobs
              (snd (run_crawl_job ticking four_businesses some_analysis
                      selective_job
                      {| clock_reads := 0;
                         crawl_jobs := [weekly_job; selective_job] |}))).
Proof.
  destruct (run_counts_are_consistent ticking four_businesses some_analysis
              selective_job
              {| clock_reads := 0; crawl_jobs := [weekly_job; selective_job] |}
              [ {| instagram_username := Some "big" |};
                {| instagram_username := None |};
                {| instagram_username := Some "small" |};
                {| instagram_username := Some "down" |} ])
    as (n & k & Hr & Hk & Hn & Hf).
  - reflexivity.
  - assert (E : Completed 2 1 = Completed n k)
      by (rewrite <- Hr; vm_compute; reflexivity).
    injection E as <- <-.
    exists 2, 1. split; [exact Hr|]. split; [reflexivity|].
    split; [reflexivity|]. split; [exact Hk|]. split; [exact Hn|]. exact Hf.
Defined.

Lemma failed_runs_stay_due_witness :
  crawl_jobs (check_and_run_jobs ticking (fun _ => None) no_analysis
                {| clock_reads := 0; crawl_jobs := [weekly_job] |})
  = [weekly_job].
Proof.
  apply (proj1 (failed_runs_stay_due ticking (fun _ => None) no_analysis
                  {| clock_reads := 0; crawl_jobs := [weekly_job] |}
                  (fun j => eq_refl))).
Defined.

Lemma idle_jobs_are_untouched_witness :
  {| id := 2; name := "bars"; frequency := "daily";
     min_opportunity_score := 5; is_active := false;
     last_run := None; next_run := None; profiles_found := 0 |}
  ∈ crawl_jobs
      (check_and_run_jobs ticking no_business no_analysis
         {| clock_reads := 0;
            crawl_jobs :=
              [ weekly_job;
                {| id := 2; name := "bars"; frequency := "daily";
                   min_opportunity_score := 5; is_active := false;
                   last_run := None; next_run := None; profiles_found := 0 |} ] |}).
Proof.
  apply idle_jobs_are_untouched.
  - apply (bool_decide_unpack (NoDup _)). vm_compute. exact I.
  - right. left.
  - left. reflexivity.
Defined.

(** The rows of the weekly report. *)
Lemma recent_opportunities_elements (now : Z) (rows : list Store.AnalysisHistory)
    (r : Store.AnalysisHistory) :
  r ∈ recent_opportunities now rows ->
  r ∈ Store.get_top_opportunities 6 50 rows /\
  now - Py.timedelta_days 7 <= Store.analyzed_at r /\
  Store.contacted r = false.
Proof.
  unfold recent_opportunities. intros H.
  apply list_elem_of_filter in H. tauto.
Qed.

(** X28.  The weekly report lists at most 50 rows of the table, each
    scoring at least 6.0, not contacted, analyzed within the last 7 days, and
    not postdated by another analysis of the same username. *)
Theorem weekly_report_rows :
  forall (now : Z) (rows : list Store.AnalysisHistory),
    (length (recent_opportunities now rows) <= 50)%nat /\
    Forall (fun r =>
              r ∈ rows /\
              (6 <= Store.opportunity_score r)%Q /\
              Store.contacted r = false /\
              now - 7 * Py.DAY <= Store.analyzed_at r /\
              Forall (fun x => Store.username x = Store.username r ->
                               Store.analyzed_at x <= Store.analyzed_at r) rows)
           (recent_opportunities now rows).
Proof.
  intros now rows. split.
  - unfold recent_opportunities.
    etransitivity; [apply length_filter|].
    unfold Store.get_top_opportunities. apply firstn_le_length.
  - apply Forall_forall. intros r Hr.
    apply recent_opportunities_elements in Hr as (Ht & Hrecent & Hc).
    apply StoreQueries.top_opportunities_elements in Ht as (Hin & Hs & Hmax).
    repeat split; auto.
    apply Forall_forall. intros x Hx Hu. rewrite Hmax, <- Hu.
    now apply StoreQueries.max_analyzed_at_ge.
Qed.

(** X29.  A lead marked as contacted leaves the weekly report: when no two
    analyses of a username carry the same timestamp, after a successful
    [mark_contacted] the report has no row of that username. *)
Theorem contacted_lead_leaves_report :
  forall (u : string) (new_notes : option string) (t now : Z)
         (rows : list Store.AnalysisHistory),
    NoDup (map (fun r => (Store.username r, Store.analyzed_at r)) rows) ->
    fst (Store.mark_contacted u new_notes t rows) = true ->
    Forall (fun r => Store.username r <> u)
           (recent_opportunities now
              (snd (Store.mark_contacted u new_notes t rows))).
Proof.
  intros u new_notes t now rows Hnd Hok.
  unfold Store.mark_contacted in *.
  destruct (Store.newest u rows) as [[i a]|] eqn:En; [|discriminate].
  destruct (StoreFacts.newest_some u rows i a En) as (Hi & Hua & Hmax).
  cbn [snd]. apply Forall_forall. intros r Hr Hu.
  apply recent_opportunities_elements in Hr as (Ht & _ & Hc).
  apply StoreQueries.top_opportunities_elements in Ht as (Hin & _ & Hlatest).
  assert (Hlt : (i < length rows)%nat) by (eapply lookup_lt_Some; exact Hi).
  assert (Hmarked : Store.contact t new_notes a
                      ∈ <[i := Store.contact t new_notes a]> rows).
  { apply list_elem_of_lookup. exists i. now apply list_lookup_insert_eq. }
  apply StoreQueries.max_analyzed_at_ge in Hmarked. cbn in Hmarked.
  apply list_elem_of_lookup in Hin as [j Hj].
  destruct (decide (j = i)) as [->|Hne].
  - rewrite list_lookup_insert_eq in Hj by exact Hlt.
    injection Hj as <-. discriminate.
  - rewrite list_lookup_insert_ne in Hj by congruence.
    apply Hne.
    apply (NoDup_lookup _ _ _ (Store.username r, Store.analyzed_at r) Hnd).
    + revert Hj. clear. revert j.
      induction rows as [|x l IH]; intros [|j] H; try discriminate.
      * injection H as ->. reflexivity.
      * cbn. now apply IH.
    + assert (Hle : Store.analyzed_at r <= Store.analyzed_at a).
      { rewrite Forall_forall in Hmax. apply Hmax; [|exact Hu].
        apply list_elem_of_lookup. eauto. }
      assert (Hge : Store.analyzed_at a <= Store.analyzed_at r).
      { rewrite Hlatest, Hu, <- Hua. exact Hmarked. }
      replace (Store.analyzed_at r) with (Store.analyzed_at a) by lia.
      rewrite Hu, <- Hua.
      revert Hi. clear. revert i.
      induction rows as [|x l IH]; intros [|i] H; try discriminate.
      * injection H as ->. reflexivity.
      * cbn. now apply IH.
Qed.

Lemma contacted_lead_leaves_report_witness :
  Forall (fun r => Store.username r <> "cafe")
         (recent_opportunities 3000
            (snd (Store.mark_contacted "cafe" None 2500
                    [Store.mk 1 "cafe" 8 1000; Store.mk 2 "cafe" 7 2000]))).
Proof.
  apply contacted_lead_leaves_report.
  - apply (bool_decide_unpack (NoDup _)). vm_compute. exact I.
  - reflexivity.
Defined.

End SchedulerRuns.
